(** * airpods-and-bluetooth-battery: the advertisement decoder and the scan loop

    A shallow embedding of [airpods-and-bluetooth-battery.py].

    - Python values: [bytes] is a list of [byte], [str] a [string], [int] a [Z],
      [None]-or-value an [option], a [dict] an insertion-ordered association
      list with unique keys (module [Dict]).
    - Python exceptions: a computation returns a [result]; the exceptions the
      program can raise from its own code are [IndexError] (string indexing),
      [KeyError] (dict subscript, [del]) and [ValueError] ([int(s, 16)]).
    - The Tk window: the record [Application] holds what the program stores in
      it, the text of the status label and the dict [device_frames]; methods
      that mutate it are computations in the monad [App], which keeps the
      state reached when an exception is raised.
    - The worker thread talks to the window only through [self.after(0, ...)]:
      the calls are the events [tk_event], queued in program order and run by
      the main loop first-in first-out.  The two [asyncio.sleep] calls and the
      radio are outside the model: what a scan window discovered is an input. *)

From Stdlib Require Import ZArith List String Ascii Bool Lia Arith.
From Stdlib Require Import DecimalString.
From Stdlib.Strings Require Import Byte.
Import ListNotations.

Set Implicit Arguments.
Open Scope string_scope.
Open Scope list_scope.

(** ** Exceptions and results *)

Inductive exception : Type :=
| IndexError
| KeyError
| ValueError.

Inductive result (A : Type) : Type :=
| Ok (a : A)
| Raise (e : exception).

Arguments Ok {A} a.
Arguments Raise {A} e.

Definition bind {A B : Type} (r : result A) (k : A -> result B) : result B :=
  match r with
  | Ok a => k a
  | Raise e => Raise e
  end.

Declare Scope result_scope.
Delimit Scope result_scope with result.
Notation "x <- r ;; k" := (bind r (fun x => k))
  (at level 61, r at next level, right associativity) : result_scope.

(** ** Constants *)

Definition APPLE_MANUFACTURER_ID : Z := 76.
Definition DATA_LENGTH : nat := 27.
Definition BATTERY_SERVICE_UUID : string := "0000180f-0000-1000-8000-00805f9b34fb".

(** ** The Python built-ins the program uses *)

Module Py.

Definition bytes : Type := list byte.

(** [len(b)] *)
Definition len (b : bytes) : nat := List.length b.

(** The digit table of [bytes.hex()]. *)
Definition hexdigits : string := "0123456789abcdef".

(** One digit of the table; the index is a nibble, so it is below 16. *)
Definition hexdigit (n : N) : ascii :=
  match String.get (N.to_nat n) hexdigits with
  | Some c => c
  | None => "0"%char
  end.

Definition high_nibble (b : byte) : N := N.shiftr (Byte.to_N b) 4.
Definition low_nibble (b : byte) : N := N.land (Byte.to_N b) 15.

(** [b.hex()]: two digits per byte, the high nibble first. *)
Fixpoint hex (b : bytes) : string :=
  match b with
  | [] => EmptyString
  | x :: rest =>
      String (hexdigit (high_nibble x)) (String (hexdigit (low_nibble x)) (hex rest))
  end.

(** [s[i]] for an index [i >= 0]. *)
Definition str_getitem (s : string) (i : nat) : result ascii :=
  match String.get i s with
  | Some c => Ok c
  | None => Raise IndexError
  end.

(** [int(c, 16)] for a one-character string [c]. *)
Definition int16 (c : ascii) : result Z :=
  let n := Z.of_nat (nat_of_ascii c) in
  if ((48 <=? n) && (n <=? 57))%Z then Ok (n - 48)%Z
  else if ((97 <=? n) && (n <=? 102))%Z then Ok (n - 87)%Z
  else if ((65 <=? n) && (n <=? 70))%Z then Ok (n - 55)%Z
  else Raise ValueError.

(** [str(n)] for an [int]. *)
Definition str_of_int (n : Z) : string := NilZero.string_of_int (Z.to_int n).

(** [x or default] where [x] is a [str] or [None]: the empty string is as
    false as [None]. *)
Definition or_else (x : option string) (default : string) : string :=
  match x with
  | None => default
  | Some EmptyString => default
  | Some s => s
  end.

(** [x in l] for a list of strings. *)
Definition list_contains (x : string) (l : list string) : bool :=
  existsb (String.eqb x) l.

End Py.

(** ** The advertisement decoder *)

Section Decoder.

Local Open Scope result_scope.

(** A battery level: a percentage or [None]. *)
Definition battery_level : Type := option Z.

Definition get_level (hex_char : ascii) : result battery_level :=
  level <- Py.int16 hex_char ;;
  Ok (if (level <=? 10)%Z then Some (level * 10)%Z else None).

(** The dict the decoder returns, in insertion order. *)
Definition parse_airpods_data (raw_data : Py.bytes) : result (list (string * battery_level)) :=
  let hex_data := Py.hex raw_data in
  c12 <- Py.str_getitem hex_data 12 ;;
  left_level <- get_level c12 ;;
  c13 <- Py.str_getitem hex_data 13 ;;
  right_level <- get_level c13 ;;
  c15 <- Py.str_getitem hex_data 15 ;;
  case_level <- get_level c15 ;;
  Ok [ ("Left", left_level); ("Right", right_level); ("Case", case_level) ].

End Decoder.

(** ** Dictionaries

    A Python [dict] keeps its keys unique and in insertion order; assigning to
    a key that is present replaces the value where it stands. *)

Class Hashable (K : Type) : Type := {
  key_eqb : K -> K -> bool;
  key_eqb_eq : forall a b : K, key_eqb a b = true <-> a = b
}.

#[export] Instance string_Hashable : Hashable string :=
  {| key_eqb := String.eqb; key_eqb_eq := String.eqb_eq |}.

#[export] Instance Z_Hashable : Hashable Z :=
  {| key_eqb := Z.eqb; key_eqb_eq := Z.eqb_eq |}.

Definition dict (K V : Type) : Type := list (K * V).

Module Dict.
Section Ops.
Context {K V : Type} `{Hashable K}.

Fixpoint get (d : dict K V) (k : K) : option V :=
  match d with
  | [] => None
  | (k', v) :: rest => if key_eqb k k' then Some v else get rest k
  end.

(** [k in d] *)
Definition contains (k : K) (d : dict K V) : bool :=
  match get d k with
  | Some _ => true
  | None => false
  end.

(** [d[k]] *)
Definition getitem (d : dict K V) (k : K) : result V :=
  match get d k with
  | Some v => Ok v
  | None => Raise KeyError
  end.

(** [d[k] = v] *)
Fixpoint setitem (d : dict K V) (k : K) (v : V) : dict K V :=
  match d with
  | [] => [(k, v)]
  | (k', v') :: rest =>
      if key_eqb k k' then (k', v) :: rest else (k', v') :: setitem rest k v
  end.

Fixpoint remove (d : dict K V) (k : K) : dict K V :=
  match d with
  | [] => []
  | (k', v') :: rest =>
      if key_eqb k k' then rest else (k', v') :: remove rest k
  end.

(** [del d[k]] *)
Definition delitem (d : dict K V) (k : K) : result (dict K V) :=
  if contains k d then Ok (remove d k) else Raise KeyError.

(** [list(d.keys())] *)
Definition keys (d : dict K V) : list K := List.map fst d.

(** [not d] *)
Definition is_empty (d : dict K V) : bool :=
  match d with
  | [] => true
  | _ :: _ => false
  end.

(** How many entries a key has. *)
Definition count (k : K) (d : dict K V) : nat :=
  List.length (List.filter (fun e => key_eqb k (fst e)) d).

End Ops.
End Dict.

(** ** State and exceptions together

    [ST S A] is a computation over a mutable state [S] that returns an [A] or
    raises; the state reached at the raise is kept. *)

Definition ST (S A : Type) : Type := S -> result A * S.

Module St.
Section Ops.
Context {S : Type}.

Definition ret {A : Type} (a : A) : ST S A := fun s => (Ok a, s).

Definition bind {A B : Type} (m : ST S A) (k : A -> ST S B) : ST S B :=
  fun s =>
    match m s with
    | (Ok a, s') => k a s'
    | (Raise e, s') => (Raise e, s')
    end.

Definition gets {A : Type} (f : S -> A) : ST S A := fun s => (Ok (f s), s).

Definition modify (f : S -> S) : ST S unit := fun s => (Ok tt, f s).

Definition lift {A : Type} (r : result A) : ST S A := fun s => (r, s).

(** [for x in l: body(x)] *)
Fixpoint for_each {X : Type} (l : list X) (body : X -> ST S unit) : ST S unit :=
  match l with
  | [] => ret tt
  | x :: rest => bind (body x) (fun _ => for_each rest body)
  end.

End Ops.
End St.

Declare Scope st_scope.
Delimit Scope st_scope with st.
Notation "x <- m ;; k" := (St.bind m (fun x => k))
  (at level 61, m at next level, right associativity) : st_scope.
Notation "m ;; k" := (St.bind m (fun _ => k))
  (at level 61, right associativity) : st_scope.

(** ** What a scan window yields *)

(** [dev]: the fields of bleak's [BLEDevice] the program reads. *)
Record BLEDevice : Type := {
  name : option string;
  address : string
}.

(** [adv]: the fields of bleak's [AdvertisementData] the program reads. *)
Record AdvertisementData : Type := {
  manufacturer_data : dict Z Py.bytes;
  service_uuids : list string
}.

(** The two shapes of value stored in [devices_found]:
    [{"type": "airpods", "data": ...}] and [{"type": "standard", "address": ...}]. *)
Inductive info : Type :=
| Airpods (data : Py.bytes)
| Standard (address : string).

(** [devices_found]: from resolved name to what was learnt about the device. *)
Definition snapshot : Type := dict string info.

(** ** The window *)

Inductive widget : Type :=
| DeviceBatteryFrame (name_label : string) (progress_value : Z)
                     (percent_label : string) (progress_style : string)
| Label (text : string).

(** [DeviceBatteryFrame(parent, name, battery_level)]: the constructor ends in
    [set_battery_level]. *)
Definition new_DeviceBatteryFrame (name : string) (battery_level : battery_level) : widget :=
  match battery_level with
  | Some level =>
      let color :=
        if (50 <? level)%Z then "green" else if (20 <? level)%Z then "orange" else "red" in
      DeviceBatteryFrame name level (Py.str_of_int level ++ "%")
                         (color ++ ".Horizontal.TProgressbar")
  | None => DeviceBatteryFrame name 0 "N/A" "grey.Horizontal.TProgressbar"
  end.

(** A [tk.LabelFrame] of the window: its title and the widgets packed in it. *)
Record LabelFrame : Type := {
  frame_text : string;
  winfo_children : list widget
}.

Record Application : Type := {
  status_label : string;
  device_frames : dict string LabelFrame
}.

(** [Application.__init__] *)
Definition init_Application : Application :=
  {| status_label := "Scanning..."; device_frames := [] |}.

Definition App (A : Type) : Type := ST Application A.

Section Gui.

Local Open Scope st_scope.

(** [self.status_label.config(text=...)] *)
Definition status_label_config (text : string) : App unit :=
  St.modify (fun app => {| status_label := text; device_frames := device_frames app |}).

Definition set_device_frames (frames : dict string LabelFrame) : App unit :=
  St.modify (fun app => {| status_label := status_label app; device_frames := frames |}).

(** A mutation of the frame object that [device_frames[name]] refers to: the
    dict and the window share the object, so the dict sees the change. *)
Definition with_container (name : string) (f : LabelFrame -> LabelFrame) : App unit :=
  frames <- St.gets device_frames ;;
  container <- St.lift (Dict.getitem frames name) ;;
  set_device_frames (Dict.setitem frames name (f container)).

Definition destroy_children (c : LabelFrame) : LabelFrame :=
  {| frame_text := frame_text c; winfo_children := [] |}.

Definition pack_child (w : widget) (c : LabelFrame) : LabelFrame :=
  {| frame_text := frame_text c; winfo_children := winfo_children c ++ [w] |}.

(** The body of the loop under [# Remove old frames]. *)
Definition remove_old_frame (devices : snapshot) (name : string) : App unit :=
  if negb (Dict.contains name devices) then
    frames <- St.gets device_frames ;;
    _ <- St.lift (Dict.getitem frames name) ;;
    frames' <- St.lift (Dict.delitem frames name) ;;
    set_device_frames frames'
  else St.ret tt.

(** The body of the loop under [# Add/update frames]. *)
Definition show_device (entry : string * info) : App unit :=
  let (name, info) := entry in
  frames <- St.gets device_frames ;;
  (if negb (Dict.contains name frames) then
     set_device_frames
       (Dict.setitem frames name {| frame_text := name; winfo_children := [] |})
   else St.ret tt) ;;
  with_container name destroy_children ;;
  match info with
  | Airpods data =>
      battery_data <- St.lift (parse_airpods_data data) ;;
      St.for_each battery_data
        (fun '(part, level) =>
           with_container name (pack_child (new_DeviceBatteryFrame part level)))
  | Standard _ =>
      with_container name (pack_child (Label "Standard battery device detected."))
  end.

Definition update_gui (devices : snapshot) : App unit :=
  if Dict.is_empty devices then
    status_label_config "No devices found. Retrying..."
  else
    frames <- St.gets device_frames ;;
    St.for_each (Dict.keys frames) (remove_old_frame devices) ;;
    St.for_each devices show_device.

End Gui.

(** ** The scan loop *)

(** What the worker hands to the window with [self.after(0, ...)]. *)
Inductive tk_event : Type :=
| StatusConfig (text : string)
| UpdateGui (devices : snapshot).

(** The worker's state is the queue of events it has handed over so far. *)
Definition Worker (A : Type) : Type := ST (list tk_event) A.

Section Scan.

(** [self.after(0, callback, args)] *)
Definition after (e : tk_event) : Worker unit :=
  St.modify (fun queue => queue ++ [e]).

Local Open Scope result_scope.

(** The test of the [if]: [and] evaluates the subscript only when the key is
    present. *)
Definition is_airpods (adv : AdvertisementData) : result bool :=
  if Dict.contains APPLE_MANUFACTURER_ID (manufacturer_data adv) then
    data <- Dict.getitem (manufacturer_data adv) APPLE_MANUFACTURER_ID ;;
    Ok (Py.len data =? DATA_LENGTH)%nat
  else Ok false.

(** The body of the [for dev, adv in ...] loop. *)
Definition classify_into (devices_found : snapshot)
           (obs : BLEDevice * AdvertisementData) : result snapshot :=
  let (dev, adv) := obs in
  airpods <- is_airpods adv ;;
  if airpods then
    let name := Py.or_else (name dev) "AirPods" in
    if negb (Dict.contains name devices_found) then
      data <- Dict.getitem (manufacturer_data adv) APPLE_MANUFACTURER_ID ;;
      Ok (Dict.setitem devices_found name (Airpods data))
    else Ok devices_found
  else if Py.list_contains BATTERY_SERVICE_UUID (service_uuids adv) then
    let name := Py.or_else (name dev) "Unknown Device" in
    if negb (Dict.contains name devices_found) then
      Ok (Dict.setitem devices_found name (Standard (address dev)))
    else Ok devices_found
  else Ok devices_found.

(** The whole [for] loop, from the dict built so far. *)
Fixpoint collect (devices_found : snapshot)
         (discovered : list (BLEDevice * AdvertisementData)) : result snapshot :=
  match discovered with
  | [] => Ok devices_found
  | obs :: rest =>
      devices_found' <- classify_into devices_found obs ;;
      collect devices_found' rest
  end.

Local Open Scope st_scope.

(** One turn of [while True], given what the scanner discovered in the
    window. *)
Definition scan_cycle (discovered : list (BLEDevice * AdvertisementData)) : Worker unit :=
  after (StatusConfig "Scanning...") ;;
  devices_found <- St.lift (collect [] discovered) ;;
  after (UpdateGui devices_found) ;;
  after (StatusConfig "Scan complete. Next scan in 15s.").

(** The first turns of [scan_and_update], one per scan window. *)
Definition scan_and_update
           (windows : list (list (BLEDevice * AdvertisementData))) : Worker unit :=
  St.for_each windows scan_cycle.

End Scan.

(** ** The main loop *)

(** Running one queued callback; Tk reports an exception of a callback and
    goes on with the window as the callback left it. *)
Definition run_callback (app : Application) (e : tk_event) : Application :=
  match e with
  | StatusConfig text => snd (status_label_config text app)
  | UpdateGui devices => snd (update_gui devices app)
  end.

(** The callbacks run in the order they were queued. *)
Definition mainloop (queue : list tk_event) (app : Application) : Application :=
  fold_left run_callback queue app.

(** The events the worker queues over the given windows. *)
Definition events_of (windows : list (list (BLEDevice * AdvertisementData))) : list tk_event :=
  snd (scan_and_update windows []).

(** The most recent snapshot handed over in a sequence of events. *)
Fixpoint last_snapshot (events : list tk_event) (seen : option snapshot) : option snapshot :=
  match events with
  | [] => seen
  | UpdateGui devices :: rest => last_snapshot rest (Some devices)
  | StatusConfig _ :: rest => last_snapshot rest seen
  end.

(** ** Vocabulary of the properties *)

(** The reading that the vendor encoding assigns to a digit [d] of 0 to 15:
    ten times the digit up to 10, unknown above. *)
Definition reads (d : Z) (r : battery_level) : Prop :=
  ((0 <= d <= 10)%Z -> r = Some (d * 10)%Z) /\ ((11 <= d <= 15)%Z -> r = None).

(** The level the decoder gives to the nibble [n]. *)
Definition level_of (n : N) : battery_level :=
  if (Z.of_N n <=? 10)%Z then Some (Z.of_N n * 10)%Z else None.

(** The lowercase character of the digit [d]. *)
Definition digit_char (d : Z) : ascii := Py.hexdigit (Z.to_N d).

(** The observation, met with nothing found yet, is entered under [n] as [i]. *)
Definition classified (obs : BLEDevice * AdvertisementData) (n : string) (i : info) : Prop :=
  classify_into [] obs = Ok [(n, i)].

(** The observation, met with nothing found yet, leaves nothing. *)
Definition ignored (obs : BLEDevice * AdvertisementData) : Prop :=
  classify_into [] obs = Ok [].

(** Entering [i] under [n] when first seen wins. *)
Definition enter (devices_found : snapshot) (n : string) (i : info) : snapshot :=
  if Dict.contains n devices_found then devices_found else devices_found ++ [(n, i)].

(** The EarbudsStyle predicate: an entry for the Apple ID, 27 bytes long. *)
Definition earbuds_style (adv : AdvertisementData) : Prop :=
  exists data,
    Dict.get (manufacturer_data adv) APPLE_MANUFACTURER_ID = Some data
    /\ Py.len data = DATA_LENGTH.

(** What the first observation of [discovered] that is entered under [n] on
    its own is entered as. *)
Fixpoint first_qualifying (n : string) (discovered : list (BLEDevice * AdvertisementData))
  : option info :=
  match discovered with
  | [] => None
  | obs :: rest =>
      match classify_into [] obs with
      | Ok [(n', i)] => if String.eqb n n' then Some i else first_qualifying n rest
      | _ => first_qualifying n rest
      end
  end.

(** The window with other frames. *)
Definition with_frames (app : Application) (frames : dict string LabelFrame) : Application :=
  {| status_label := status_label app; device_frames := frames |}.

(** The frames once there is one for [n]. *)
Definition ensure_frame (frames : dict string LabelFrame) (n : string)
  : dict string LabelFrame :=
  if Dict.contains n frames then frames
  else Dict.setitem frames n {| frame_text := n; winfo_children := [] |}.

(** The widgets packed for the entries of a decoded dict. *)
Definition gauges (battery_data : list (string * battery_level)) : list widget :=
  List.map (fun '(part, level) => new_DeviceBatteryFrame part level) battery_data.

(** The widgets a frame shows for a device. *)
Definition widgets_of (i : info) : list widget :=
  match i with
  | Airpods data =>
      match parse_airpods_data data with
      | Ok battery_data => gauges battery_data
      | Raise _ => []
      end
  | Standard _ => [Label "Standard battery device detected."]
  end.

(** A snapshot as the scan builds them: unique names, 27 bytes per earbuds
    entry. *)
Definition well_formed (devices : snapshot) : Prop :=
  NoDup (Dict.keys devices)
  /\ forall n data, In (n, Airpods data) devices -> Py.len data = DATA_LENGTH.

(** Sample inputs. *)
Definition sample_airpods : Py.bytes :=
  [x07; x19; x01; x0e; x20; x75; xa5; x80; x00; x00; x00; x00; x00; x00;
   x00; x00; x00; x00; x00; x00; x00; x00; x00; x00; x00; x00; x00].

Definition sample_airpods' : Py.bytes :=
  [xff; xfe; xfd; xfc; xfb; xfa; xa5; x80; x11; x12; x13; x14; x15; x16;
   x17; x18; x19; x1a; x1b; x1c; x1d; x1e; x1f; x20; x21; x22; x23].

Definition sample_earbuds : BLEDevice * AdvertisementData :=
  ({| name := None; address := "AA:BB:CC:DD:EE:01" |},
   {| manufacturer_data := [(76%Z, sample_airpods)]; service_uuids := [] |}).

Definition sample_earbuds_again : BLEDevice * AdvertisementData :=
  ({| name := Some ""; address := "AA:BB:CC:DD:EE:06" |},
   {| manufacturer_data := [(76%Z, sample_airpods')]; service_uuids := [] |}).

Definition sample_short_apple : BLEDevice * AdvertisementData :=
  ({| name := Some "Mouse"; address := "AA:BB:CC:DD:EE:02" |},
   {| manufacturer_data := [(76%Z, [x10; x05])];
      service_uuids := [BATTERY_SERVICE_UUID] |}).

Definition sample_unnamed_battery : BLEDevice * AdvertisementData :=
  ({| name := None; address := "AA:BB:CC:DD:EE:03" |},
   {| manufacturer_data := []; service_uuids := ["0000180a-0000-1000-8000-00805f9b34fb";
                                                 BATTERY_SERVICE_UUID] |}).

Definition sample_other : BLEDevice * AdvertisementData :=
  ({| name := Some "Beacon"; address := "AA:BB:CC:DD:EE:04" |},
   {| manufacturer_data := [(6%Z, [x01; x09])]; service_uuids := [] |}).

(** The snapshot of a scan window. *)
Definition snapshot_of (discovered : list (BLEDevice * AdvertisementData)) : snapshot :=
  match collect [] discovered with
  | Ok found => found
  | Raise _ => []
  end.

Definition SCANNING : string := "Scanning...".
Definition SCAN_COMPLETE : string := "Scan complete. Next scan in 15s.".
Definition NO_DEVICES : string := "No devices found. Retrying...".

(** The three events of one turn of the loop. *)
Definition cycle_events (discovered : list (BLEDevice * AdvertisementData)) : list tk_event :=
  [StatusConfig SCANNING; UpdateGui (snapshot_of discovered); StatusConfig SCAN_COMPLETE].

(** The snapshot the window last filled its frames from: the latest one of
    [windows] that is not empty, [shown] when there is none. *)
Fixpoint last_shown (windows : list (list (BLEDevice * AdvertisementData)))
         (shown : snapshot) : snapshot :=
  match windows with
  | [] => shown
  | discovered :: rest =>
      last_shown rest
        (if Dict.is_empty (snapshot_of discovered) then shown else snapshot_of discovered)
  end.

(** A frame as the window fills them: titled with its name, holding either
    the notice of a standard device or the three gauges of an earbuds device. *)
Definition frame_ok (n : string) (c : LabelFrame) : Prop :=
  frame_text c = n
  /\ (winfo_children c = [Label "Standard battery device detected."]
      \/ exists left right case,
           winfo_children c
           = [ new_DeviceBatteryFrame "Left" left;
               new_DeviceBatteryFrame "Right" right;
               new_DeviceBatteryFrame "Case" case ]).

Definition frames_ok (frames : dict string LabelFrame) : Prop :=
  NoDup (Dict.keys frames) /\ forall n c, In (n, c) frames -> frame_ok n c.

(** The frames the window shows for a snapshot that hold what it says. *)
Definition shows (frames : dict string LabelFrame) (devices : snapshot) : Prop :=
  (forall k, In k (Dict.keys frames) <-> In k (Dict.keys devices))
  /\ forall n i, In (n, i) devices ->
                 exists c, Dict.get frames n = Some c /\ winfo_children c = widgets_of i.

Definition sample_truncated : snapshot :=
  [("Pods", Airpods [x07; x19; x01]); ("Mouse", Standard "AA:BB:CC:DD:EE:02")].

(** The frames of the window as [update_gui] leaves them, as functions of
    the frames it finds. *)

(** After the loop under [# Remove old frames]. *)
Definition kept (frames : dict string LabelFrame) (devices : snapshot)
  : dict string LabelFrame :=
  List.filter (fun e => Dict.contains (fst e) devices) frames.

(** After one turn of the loop under [# Add/update frames]. *)
Definition show_one (frames : dict string LabelFrame) (entry : string * info)
  : dict string LabelFrame :=
  Dict.setitem frames (fst entry)
    {| frame_text := match Dict.get frames (fst entry) with
                     | Some c => frame_text c
                     | None => fst entry
                     end;
       winfo_children := widgets_of (snd entry) |}.

Definition show_all (frames : dict string LabelFrame) (devices : snapshot)
  : dict string LabelFrame :=
  List.fold_left show_one devices frames.

Definition updated_frames (frames : dict string LabelFrame) (devices : snapshot)
  : dict string LabelFrame :=
  if Dict.is_empty devices then frames else show_all (kept frames devices) devices.

(** * Properties *)

(** ** The hexadecimal rendering *)

Section HexFacts.

Lemma high_nibble_lt (b : byte) : (Py.high_nibble b < 16)%N.
Proof. destruct b; vm_compute; reflexivity. Qed.

Lemma low_nibble_lt (b : byte) : (Py.low_nibble b < 16)%N.
Proof. destruct b; vm_compute; reflexivity. Qed.

Lemma hex_length (raw : Py.bytes) : String.length (Py.hex raw) = 2 * Py.len raw.
Proof.
  induction raw as [|b raw IH]; simpl; [reflexivity|].
  rewrite IH. unfold Py.len. simpl. lia.
Qed.

Lemma hex_get_even (raw : Py.bytes) :
  forall i, String.get (2 * i) (Py.hex raw)
            = option_map (fun b => Py.hexdigit (Py.high_nibble b)) (nth_error raw i).
Proof.
  induction raw as [|b raw IH]; intros [|i]; try reflexivity.
  replace (2 * S i) with (S (S (2 * i))) by lia.
  simpl Py.hex. simpl nth_error. simpl String.get. apply IH.
Qed.

Lemma hex_get_odd (raw : Py.bytes) :
  forall i, String.get (2 * i + 1) (Py.hex raw)
            = option_map (fun b => Py.hexdigit (Py.low_nibble b)) (nth_error raw i).
Proof.
  induction raw as [|b raw IH]; intros [|i]; try reflexivity.
  replace (2 * S i + 1) with (S (S (2 * i + 1))) by lia.
  simpl Py.hex. simpl nth_error. simpl String.get. apply IH.
Qed.

Lemma nibble_cases (n : N) :
  (n < 16)%N ->
  In n [0; 1; 2; 3; 4; 5; 6; 7; 8; 9; 10; 11; 12; 13; 14; 15]%N.
Proof.
  intros Hn. simpl.
  destruct n as [|p]; [tauto|].
  do 4 (destruct p as [p|p|]; try (exfalso; lia); try tauto); exfalso; lia.
Qed.

Lemma hexdigit_lowercase (n : N) :
  (n < 16)%N -> In (Py.hexdigit n) (list_ascii_of_string Py.hexdigits).
Proof.
  intros Hn. apply nibble_cases in Hn. simpl in Hn.
  repeat (destruct Hn as [<- | Hn]; [vm_compute; tauto|]). contradiction.
Qed.

(** Every character of the rendering is one of [0123456789abcdef]. *)
Lemma hex_lowercase (raw : Py.bytes) :
  forall i c, String.get i (Py.hex raw) = Some c ->
              In c (list_ascii_of_string Py.hexdigits).
Proof.
  induction raw as [|b raw IH]; intros i c Hget; [destruct i; discriminate|].
  destruct i as [|[|i]]; simpl in Hget.
  - injection Hget as <-. apply hexdigit_lowercase, high_nibble_lt.
  - injection Hget as <-. apply hexdigit_lowercase, low_nibble_lt.
  - eapply IH; eassumption.
Qed.

(** Distinct digits have distinct characters. *)
Lemma digit_char_inj (d d' : Z) :
  (0 <= d < 16)%Z -> (0 <= d' < 16)%Z -> digit_char d = digit_char d' -> d = d'.
Proof.
  intros Hd Hd' Heq.
  assert (Z.to_N d < 16)%N as Hn by lia. assert (Z.to_N d' < 16)%N as Hn' by lia.
  apply nibble_cases in Hn, Hn'. unfold digit_char in Heq.
  assert (Z.to_N d = Z.to_N d') as E; [|lia].
  simpl in Hn, Hn'.
  repeat (destruct Hn as [Hn | Hn]; [|]); try contradiction;
    repeat (destruct Hn' as [Hn' | Hn']; [|]); try contradiction;
    rewrite <- Hn, <- Hn' in Heq |- *; try reflexivity; discriminate Heq.
Qed.

(** The three characters the decoder reads are nibbles of bytes 6 and 7. *)
Lemma hex_get_12 (raw : Py.bytes) :
  String.get 12 (Py.hex raw)
  = option_map (fun b => Py.hexdigit (Py.high_nibble b)) (nth_error raw 6).
Proof. exact (hex_get_even raw 6). Qed.

Lemma hex_get_13 (raw : Py.bytes) :
  String.get 13 (Py.hex raw)
  = option_map (fun b => Py.hexdigit (Py.low_nibble b)) (nth_error raw 6).
Proof. exact (hex_get_odd raw 6). Qed.

Lemma hex_get_15 (raw : Py.bytes) :
  String.get 15 (Py.hex raw)
  = option_map (fun b => Py.hexdigit (Py.low_nibble b)) (nth_error raw 7).
Proof. exact (hex_get_odd raw 7). Qed.

End HexFacts.

(** ** The decoder *)

Section DecoderFacts.

Lemma get_level_hexdigit (n : N) :
  (n < 16)%N -> get_level (Py.hexdigit n) = Ok (level_of n).
Proof.
  intros Hn. apply nibble_cases in Hn. simpl in Hn.
  repeat (destruct Hn as [<- | Hn]; [reflexivity|]). contradiction.
Qed.

Lemma level_of_reads (n : N) : reads (Z.of_N n) (level_of n).
Proof.
  unfold reads, level_of. split; intros Hd.
  - destruct (Z.leb_spec (Z.of_N n) 10); [reflexivity | lia].
  - destruct (Z.leb_spec (Z.of_N n) 10); [lia | reflexivity].
Qed.

(** With bytes 6 and 7 present the decoder returns, and reads three of
    their four nibbles. *)
Lemma parse_from_bytes (raw : Py.bytes) (b6 b7 : byte) :
  nth_error raw 6 = Some b6 ->
  nth_error raw 7 = Some b7 ->
  parse_airpods_data raw
  = Ok [ ("Left", level_of (Py.high_nibble b6));
         ("Right", level_of (Py.low_nibble b6));
         ("Case", level_of (Py.low_nibble b7)) ].
Proof.
  intros H6 H7. unfold parse_airpods_data, Py.str_getitem.
  rewrite hex_get_12, hex_get_13, hex_get_15, H6, H7. cbn [option_map bind].
  rewrite (get_level_hexdigit (high_nibble_lt b6)). cbn [bind].
  rewrite (get_level_hexdigit (low_nibble_lt b6)). cbn [bind].
  rewrite (get_level_hexdigit (low_nibble_lt b7)). reflexivity.
Qed.

(** Without byte 7 the subscript of the hexadecimal string is out of
    range. *)
Lemma parse_too_short (raw : Py.bytes) :
  nth_error raw 7 = None -> parse_airpods_data raw = Raise IndexError.
Proof.
  intros H7. unfold parse_airpods_data, Py.str_getitem.
  rewrite hex_get_12, hex_get_13, hex_get_15, H7.
  destruct (nth_error raw 6) as [b6|]; [|reflexivity]. cbn [option_map bind].
  rewrite (get_level_hexdigit (high_nibble_lt b6)). cbn [bind].
  rewrite (get_level_hexdigit (low_nibble_lt b6)). reflexivity.
Qed.

Lemma nth_error_present (raw : Py.bytes) (i : nat) :
  i < Py.len raw -> exists b, nth_error raw i = Some b.
Proof.
  intros Hi. destruct (nth_error raw i) as [b|] eqn:E; [eauto|].
  apply nth_error_None in E. unfold Py.len in Hi. lia.
Qed.

(** The decoder returns exactly when the input has at least 8 bytes. *)
Lemma parse_returns_iff (raw : Py.bytes) :
  (exists readings, parse_airpods_data raw = Ok readings) <-> 8 <= Py.len raw.
Proof.
  split.
  - intros [readings Hr].
    destruct (nth_error raw 7) as [b7|] eqn:E7.
    + assert (nth_error raw 7 <> None) as Hn by congruence.
      apply nth_error_Some in Hn. unfold Py.len. lia.
    + rewrite (parse_too_short _ E7) in Hr. discriminate.
  - intros Hlen.
    destruct (@nth_error_present raw 6) as [b6 H6]; [lia|].
    destruct (@nth_error_present raw 7) as [b7 H7]; [lia|].
    eexists. apply (parse_from_bytes _ H6 H7).
Qed.

(** C1: for every 27-byte input, the hexadecimal rendering is lowercase and
    54 characters long, and the decoder returns exactly the three readings
    Left, Right, Case in that order, read from the digits at string indices
    12, 13 and 15: a digit d of at most 10 reads as 10*d percent, a digit of
    11 to 15 as unknown. *)
Theorem decode_reads_three_digits (raw : Py.bytes) :
  Py.len raw = DATA_LENGTH ->
  (forall i c, String.get i (Py.hex raw) = Some c ->
               In c (list_ascii_of_string Py.hexdigits))
  /\ exists (d12 d13 d15 : Z) (left right case : battery_level),
       ((0 <= d12 < 16) /\ (0 <= d13 < 16) /\ (0 <= d15 < 16))%Z
       /\ String.get 12 (Py.hex raw) = Some (digit_char d12)
       /\ String.get 13 (Py.hex raw) = Some (digit_char d13)
       /\ String.get 15 (Py.hex raw) = Some (digit_char d15)
       /\ parse_airpods_data raw
          = Ok [ ("Left", left); ("Right", right); ("Case", case) ]
       /\ reads d12 left /\ reads d13 right /\ reads d15 case.
Proof.
  intros Hlen. split; [apply hex_lowercase|].
  destruct (@nth_error_present raw 6) as [b6 H6]; [rewrite Hlen; unfold DATA_LENGTH; lia|].
  destruct (@nth_error_present raw 7) as [b7 H7]; [rewrite Hlen; unfold DATA_LENGTH; lia|].
  exists (Z.of_N (Py.high_nibble b6)), (Z.of_N (Py.low_nibble b6)),
         (Z.of_N (Py.low_nibble b7)).
  exists (level_of (Py.high_nibble b6)), (level_of (Py.low_nibble b6)),
         (level_of (Py.low_nibble b7)).
  pose proof (high_nibble_lt b6). pose proof (low_nibble_lt b6).
  pose proof (low_nibble_lt b7).
  unfold digit_char. rewrite !N2Z.id.
  split; [lia|].
  rewrite hex_get_12, hex_get_13, hex_get_15, H6, H7. cbn [option_map].
  split; [reflexivity|]. split; [reflexivity|]. split; [reflexivity|].
  split; [apply (parse_from_bytes _ H6 H7)|].
  split; [|split]; apply level_of_reads.
Qed.

Lemma decode_reads_three_digits_witness :
  Py.len sample_airpods = DATA_LENGTH
  /\ forall i c, String.get i (Py.hex sample_airpods) = Some c ->
                 In c (list_ascii_of_string Py.hexdigits).
Proof.
  split; [reflexivity|].
  apply (decode_reads_three_digits sample_airpods). reflexivity.
Defined.

(** The examples of the specification: "a", "5", "0" at indices 12, 13,
    15; then "b" at index 13. *)
Example parse_example_levels :
  Py.hex sample_airpods = "0719010e2075a58000000000000000000000000000000000000000"
  /\ parse_airpods_data sample_airpods
     = Ok [ ("Left", Some 100%Z); ("Right", Some 50%Z); ("Case", Some 0%Z) ].
Proof. split; reflexivity. Qed.

Example parse_example_sentinel :
  parse_airpods_data [x07; x19; x01; x0e; x20; x75; x3b; x8f]
  = Ok [ ("Left", Some 30%Z); ("Right", None); ("Case", None) ].
Proof. reflexivity. Qed.

Example parse_example_short :
  parse_airpods_data [x07; x19; x01; x0e; x20; x75; xa5] = Raise IndexError.
Proof. reflexivity. Qed.

(** C8: a 27-byte input renders as 54 characters, the indices 12, 13 and 15
    the decoder reads are within them, and the decoder returns a triple: it
    does not raise, in particular not [IndexError]. *)
Theorem decode_in_bounds (raw : Py.bytes) :
  Py.len raw = DATA_LENGTH ->
  String.length (Py.hex raw) = 54
  /\ (forall i, In i [12; 13; 15] ->
                i < String.length (Py.hex raw)
                /\ exists c, Py.str_getitem (Py.hex raw) i = Ok c)
  /\ parse_airpods_data raw <> Raise IndexError
  /\ exists left right case,
       parse_airpods_data raw = Ok [ ("Left", left); ("Right", right); ("Case", case) ].
Proof.
  intros Hlen. unfold DATA_LENGTH in Hlen.
  assert (String.length (Py.hex raw) = 54) as Hhex by (rewrite hex_length; lia).
  destruct (@nth_error_present raw 6) as [b6 H6]; [lia|].
  destruct (@nth_error_present raw 7) as [b7 H7]; [lia|].
  pose proof (parse_from_bytes _ H6 H7) as Hparse.
  split; [exact Hhex|]. split; [|split].
  - intros i Hi. split; [simpl in Hi; lia|]. unfold Py.str_getitem.
    destruct Hi as [<- | [<- | [<- | []]]].
    + rewrite hex_get_12, H6. eexists. reflexivity.
    + rewrite hex_get_13, H6. eexists. reflexivity.
    + rewrite hex_get_15, H7. eexists. reflexivity.
  - rewrite Hparse. discriminate.
  - eauto.
Qed.

Lemma decode_in_bounds_witness :
  Py.len sample_airpods = DATA_LENGTH
  /\ String.length (Py.hex sample_airpods) = 54.
Proof.
  split; [reflexivity|].
  apply (decode_in_bounds sample_airpods). reflexivity.
Defined.

(** C10: two 27-byte inputs with the same bytes at indices 6 and 7 decode to
    the same readings, whatever their other 25 bytes. *)
Theorem decode_depends_on_bytes_6_7 (raw1 raw2 : Py.bytes) :
  Py.len raw1 = DATA_LENGTH ->
  Py.len raw2 = DATA_LENGTH ->
  nth_error raw1 6 = nth_error raw2 6 ->
  nth_error raw1 7 = nth_error raw2 7 ->
  parse_airpods_data raw1 = parse_airpods_data raw2.
Proof.
  unfold DATA_LENGTH. intros Hlen1 Hlen2 E6 E7.
  destruct (@nth_error_present raw1 6) as [b6 H6]; [lia|].
  destruct (@nth_error_present raw1 7) as [b7 H7]; [lia|].
  rewrite (parse_from_bytes _ H6 H7).
  rewrite E6 in H6. rewrite E7 in H7.
  rewrite (parse_from_bytes _ H6 H7). reflexivity.
Qed.

Lemma decode_depends_on_bytes_6_7_witness :
  parse_airpods_data sample_airpods = parse_airpods_data sample_airpods'.
Proof.
  apply decode_depends_on_bytes_6_7; reflexivity.
Defined.

End DecoderFacts.

(** ** Dictionaries *)

Section DictFacts.

Context {K V : Type} `{Hashable K}.

Lemma key_eqb_refl (k : K) : key_eqb k k = true.
Proof. apply key_eqb_eq. reflexivity. Qed.

Lemma key_eqb_neq (a b : K) : a <> b -> key_eqb a b = false.
Proof.
  intros Hab. destruct (key_eqb a b) eqn:E; [|reflexivity].
  apply key_eqb_eq in E. contradiction.
Qed.

Lemma key_eqb_false (a b : K) : key_eqb a b = false -> a <> b.
Proof.
  intros E ->. rewrite key_eqb_refl in E. discriminate.
Qed.

Lemma get_None_iff (d : dict K V) (k : K) :
  Dict.get d k = None <-> ~ In k (Dict.keys d).
Proof.
  induction d as [|[k' v] d IH]; simpl.
  - tauto.
  - destruct (key_eqb k k') eqn:E.
    + apply key_eqb_eq in E. subst. split; [discriminate | tauto].
    + apply key_eqb_false in E. rewrite IH. split; [intros ? [|]; auto | tauto].
Qed.

Lemma contains_true_iff (d : dict K V) (k : K) :
  Dict.contains k d = true <-> In k (Dict.keys d).
Proof.
  unfold Dict.contains. destruct (Dict.get d k) eqn:E.
  - split; [intros _ | reflexivity].
    destruct (in_dec (fun a b => match bool_dec (key_eqb a b) true with
                                 | left e => left (proj1 (key_eqb_eq a b) e)
                                 | right n => right (fun e => n (proj2 (key_eqb_eq a b) e))
                                 end) k (Dict.keys d)) as [Hin|Hout]; [assumption|].
    apply get_None_iff in Hout. congruence.
  - apply get_None_iff in E. split; [discriminate | contradiction].
Qed.

Lemma contains_false_iff (d : dict K V) (k : K) :
  Dict.contains k d = false <-> ~ In k (Dict.keys d).
Proof.
  rewrite <- contains_true_iff. destruct (Dict.contains k d); split; congruence.
Qed.

Lemma get_app (d d' : dict K V) (k : K) :
  Dict.get (d ++ d') k
  = match Dict.get d k with
    | Some v => Some v
    | None => Dict.get d' k
    end.
Proof.
  induction d as [|[k' v'] d IH]; simpl; [reflexivity|].
  destruct (key_eqb k k'); [reflexivity | exact IH].
Qed.

(** Assigning to a key that is absent appends the entry. *)
Lemma setitem_fresh (d : dict K V) (k : K) (v : V) :
  Dict.contains k d = false -> Dict.setitem d k v = d ++ [(k, v)].
Proof.
  unfold Dict.contains. induction d as [|[k' v'] d IH]; simpl; [reflexivity|].
  destruct (key_eqb k k'); [discriminate|].
  intros Hc. rewrite IH by exact Hc. reflexivity.
Qed.

(** Assigning to a key that is present keeps the keys and their order. *)
Lemma keys_setitem_present (d : dict K V) (k : K) (v : V) :
  Dict.contains k d = true -> Dict.keys (Dict.setitem d k v) = Dict.keys d.
Proof.
  unfold Dict.contains. induction d as [|[k' v'] d IH]; simpl; [discriminate|].
  destruct (key_eqb k k'); [reflexivity|].
  intros Hc. unfold Dict.keys in *. simpl. f_equal. apply IH, Hc.
Qed.

Lemma get_setitem_same (d : dict K V) (k : K) (v : V) :
  Dict.get (Dict.setitem d k v) k = Some v.
Proof.
  induction d as [|[k' v'] d IH]; simpl.
  - rewrite key_eqb_refl. reflexivity.
  - destruct (key_eqb k k') eqn:E; simpl; rewrite E; [reflexivity | exact IH].
Qed.

Lemma get_setitem_other (d : dict K V) (k k0 : K) (v : V) :
  k0 <> k -> Dict.get (Dict.setitem d k v) k0 = Dict.get d k0.
Proof.
  intros Hne. induction d as [|[k' v'] d IH]; simpl.
  - rewrite (key_eqb_neq Hne). reflexivity.
  - destruct (key_eqb k k') eqn:E; simpl.
    + apply key_eqb_eq in E. subst. rewrite (key_eqb_neq Hne). reflexivity.
    + rewrite IH. reflexivity.
Qed.

Lemma keys_app (d d' : dict K V) :
  Dict.keys (d ++ d') = Dict.keys d ++ Dict.keys d'.
Proof. apply map_app. Qed.

Lemma count_absent (d : dict K V) (k : K) :
  ~ In k (Dict.keys d) -> Dict.count k d = 0.
Proof.
  unfold Dict.count. induction d as [|[k' v'] d IH]; simpl; [reflexivity|].
  intros Hout. rewrite key_eqb_neq by (intros ->; apply Hout; left; reflexivity).
  apply IH. tauto.
Qed.

(** With unique keys, a key that is present has one entry. *)
Lemma count_present (d : dict K V) (k : K) :
  NoDup (Dict.keys d) -> In k (Dict.keys d) -> Dict.count k d = 1.
Proof.
  induction d as [|[k' v'] d IH]; simpl; [contradiction|].
  intros Hnd Hin. inversion Hnd as [|? ? Hout Hnd']; subst.
  unfold Dict.count. simpl. destruct (key_eqb k k') eqn:E.
  - apply key_eqb_eq in E. subst. simpl. f_equal. apply count_absent, Hout.
  - apply key_eqb_false in E. apply IH; [assumption|]. destruct Hin; congruence.
Qed.

Lemma setitem_twice (d : dict K V) (k : K) (v v' : V) :
  Dict.setitem (Dict.setitem d k v) k v' = Dict.setitem d k v'.
Proof.
  induction d as [|[k0 v0] d IH]; simpl.
  - rewrite key_eqb_refl. reflexivity.
  - destruct (key_eqb k k0) eqn:E; simpl; rewrite E; [reflexivity|].
    rewrite IH. reflexivity.
Qed.

(** Assigning to a key the value it has changes nothing. *)
Lemma setitem_unchanged (d : dict K V) (k : K) (v : V) :
  Dict.get d k = Some v -> Dict.setitem d k v = d.
Proof.
  induction d as [|[k0 v0] d IH]; simpl; [discriminate|].
  destruct (key_eqb k k0).
  - intros [= ->]. reflexivity.
  - intros Hget. rewrite IH by exact Hget. reflexivity.
Qed.

Lemma In_keys_setitem (d : dict K V) (k k0 : K) (v : V) :
  In k0 (Dict.keys (Dict.setitem d k v)) <-> In k0 (Dict.keys d) \/ k0 = k.
Proof.
  destruct (Dict.contains k d) eqn:E.
  - rewrite keys_setitem_present by exact E. apply contains_true_iff in E.
    split; [tauto | intros [Hin | ->]; assumption].
  - rewrite setitem_fresh by exact E. rewrite keys_app, in_app_iff. simpl.
    split.
    + intros [Hin | [<- | []]]; [left; exact Hin | right; reflexivity].
    + intros [Hin | ->]; [left; exact Hin | right; left; reflexivity].
Qed.

(** Deleting a key that stands after a prefix without it. *)
Lemma remove_after (pre rest : dict K V) (k : K) (v : V) :
  ~ In k (Dict.keys pre) -> Dict.remove (pre ++ (k, v) :: rest) k = pre ++ rest.
Proof.
  induction pre as [|[k0 v0] pre IH]; simpl; intros Hout.
  - rewrite key_eqb_refl. reflexivity.
  - rewrite key_eqb_neq by (intros ->; apply Hout; left; reflexivity).
    rewrite IH by tauto. reflexivity.
Qed.

Lemma get_after (pre rest : dict K V) (k : K) (v : V) :
  ~ In k (Dict.keys pre) -> Dict.get (pre ++ (k, v) :: rest) k = Some v.
Proof.
  intros Hout. rewrite get_app. apply get_None_iff in Hout. rewrite Hout.
  simpl. rewrite key_eqb_refl. reflexivity.
Qed.

End DictFacts.

(** ** Classification of one observation *)

Section ClassifyFacts.

Lemma list_contains_iff (x : string) (l : list string) :
  Py.list_contains x l = true <-> In x l.
Proof.
  unfold Py.list_contains. rewrite existsb_exists. split.
  - intros [y [Hin Heq]]. apply String.eqb_eq in Heq. subst. exact Hin.
  - intros Hin. exists x. split; [exact Hin | apply String.eqb_refl].
Qed.

(** The test of the [if] never raises: the subscript is guarded. *)
Lemma is_airpods_eq (adv : AdvertisementData) :
  is_airpods adv
  = Ok match Dict.get (manufacturer_data adv) APPLE_MANUFACTURER_ID with
       | Some data => (Py.len data =? DATA_LENGTH)%nat
       | None => false
       end.
Proof.
  unfold is_airpods, Dict.contains, Dict.getitem.
  destruct (Dict.get (manufacturer_data adv) APPLE_MANUFACTURER_ID); reflexivity.
Qed.

Lemma is_airpods_true_iff (adv : AdvertisementData) :
  is_airpods adv = Ok true <-> earbuds_style adv.
Proof.
  rewrite is_airpods_eq. unfold earbuds_style.
  destruct (Dict.get (manufacturer_data adv) APPLE_MANUFACTURER_ID) as [data|].
  - split.
    + intros [= E]. apply Nat.eqb_eq in E. eauto.
    + intros [data' [[= <-] Hlen]]. rewrite Hlen, Nat.eqb_refl. reflexivity.
  - split; [discriminate | intros [data' [[=] _]]].
Qed.

Lemma is_airpods_false_iff (adv : AdvertisementData) :
  is_airpods adv = Ok false <-> ~ earbuds_style adv.
Proof.
  rewrite <- is_airpods_true_iff, is_airpods_eq.
  destruct (match Dict.get (manufacturer_data adv) APPLE_MANUFACTURER_ID with
            | Some data => (Py.len data =? DATA_LENGTH)%nat
            | None => false
            end); split; congruence.
Qed.

Lemma setitem_enter (devices_found : snapshot) (n : string) (i : info) :
  (if negb (Dict.contains n devices_found)
   then Dict.setitem devices_found n i else devices_found)
  = enter devices_found n i.
Proof.
  unfold enter. destruct (Dict.contains n devices_found) eqn:E; simpl.
  - reflexivity.
  - apply setitem_fresh, E.
Qed.

Lemma classify_into_airpods (devices_found : snapshot) (dev : BLEDevice)
      (adv : AdvertisementData) (data : Py.bytes) :
  Dict.get (manufacturer_data adv) APPLE_MANUFACTURER_ID = Some data ->
  Py.len data = DATA_LENGTH ->
  classify_into devices_found (dev, adv)
  = Ok (enter devices_found (Py.or_else (name dev) "AirPods") (Airpods data)).
Proof.
  intros Hget Hlen. unfold classify_into.
  rewrite is_airpods_eq, Hget, Hlen, Nat.eqb_refl. cbn [bind].
  unfold Dict.getitem. rewrite Hget. cbn [bind].
  rewrite <- setitem_enter.
  destruct (negb (Dict.contains (Py.or_else (name dev) "AirPods") devices_found));
    reflexivity.
Qed.

Lemma classify_into_standard (devices_found : snapshot) (dev : BLEDevice)
      (adv : AdvertisementData) :
  ~ earbuds_style adv ->
  In BATTERY_SERVICE_UUID (service_uuids adv) ->
  classify_into devices_found (dev, adv)
  = Ok (enter devices_found (Py.or_else (name dev) "Unknown Device")
              (Standard (address dev))).
Proof.
  intros Hno Hin. unfold classify_into.
  apply is_airpods_false_iff in Hno. rewrite Hno. cbn [bind].
  apply list_contains_iff in Hin. rewrite Hin.
  rewrite <- setitem_enter.
  destruct (negb (Dict.contains (Py.or_else (name dev) "Unknown Device") devices_found));
    reflexivity.
Qed.

Lemma classify_into_neither (devices_found : snapshot) (dev : BLEDevice)
      (adv : AdvertisementData) :
  ~ earbuds_style adv ->
  ~ In BATTERY_SERVICE_UUID (service_uuids adv) ->
  classify_into devices_found (dev, adv) = Ok devices_found.
Proof.
  intros Hno Hout. unfold classify_into.
  apply is_airpods_false_iff in Hno. rewrite Hno. cbn [bind].
  destruct (Py.list_contains BATTERY_SERVICE_UUID (service_uuids adv)) eqn:E;
    [|reflexivity].
  apply list_contains_iff in E. contradiction.
Qed.

Lemma earbuds_style_dec (adv : AdvertisementData) :
  {earbuds_style adv} + {~ earbuds_style adv}.
Proof.
  destruct (is_airpods adv) as [[|]|e] eqn:E.
  - left. apply is_airpods_true_iff, E.
  - right. apply is_airpods_false_iff, E.
  - rewrite is_airpods_eq in E. discriminate.
Qed.

(** The three ways an observation can go, whatever was found before it. *)
Lemma classify_cases (obs : BLEDevice * AdvertisementData) :
  (exists n i,
      classified obs n i
      /\ (forall data, i = Airpods data -> Py.len data = DATA_LENGTH)
      /\ forall devices_found,
          classify_into devices_found obs = Ok (enter devices_found n i))
  \/ (ignored obs
      /\ forall devices_found, classify_into devices_found obs = Ok devices_found).
Proof.
  destruct obs as [dev adv].
  destruct (earbuds_style_dec adv) as [[data [Hget Hlen]] | Hno].
  - left. exists (Py.or_else (name dev) "AirPods"), (Airpods data).
    split; [|split].
    + apply (classify_into_airpods [] dev _ Hget Hlen).
    + intros data' [= <-]. exact Hlen.
    + intros df. apply (classify_into_airpods df dev _ Hget Hlen).
  - destruct (in_dec string_dec BATTERY_SERVICE_UUID (service_uuids adv)) as [Hin|Hout].
    + left. exists (Py.or_else (name dev) "Unknown Device"), (Standard (address dev)).
      split; [|split].
      * apply (classify_into_standard [] dev Hno Hin).
      * discriminate.
      * intros df. apply (classify_into_standard df dev Hno Hin).
    + right. split.
      * apply (classify_into_neither [] dev Hno Hout).
      * intros df. apply (classify_into_neither df dev Hno Hout).
Qed.

(** C2: an observation is entered as EarbudsStyle if and only if its
    manufacturer data has an entry for ID 76 whose length is 27; with an
    entry for ID 76 of any other length it is not entered as EarbudsStyle
    under any name; and an EarbudsStyle device is entered under its name, which
    is "AirPods" when it advertises none. *)
Theorem earbuds_iff_apple_27 (dev : BLEDevice) (adv : AdvertisementData) :
  ((exists n data, classified (dev, adv) n (Airpods data)) <-> earbuds_style adv)
  /\ (forall data,
         Dict.get (manufacturer_data adv) APPLE_MANUFACTURER_ID = Some data ->
         Py.len data <> 27 ->
         forall n data', ~ classified (dev, adv) n (Airpods data'))
  /\ (forall data,
         Dict.get (manufacturer_data adv) APPLE_MANUFACTURER_ID = Some data ->
         Py.len data = 27 ->
         (forall devices_found,
             classify_into devices_found (dev, adv)
             = Ok (enter devices_found (Py.or_else (name dev) "AirPods") (Airpods data)))
         /\ (name dev = None -> classified (dev, adv) "AirPods" (Airpods data))).
Proof.
  assert (forall n data, classified (dev, adv) n (Airpods data) -> earbuds_style adv)
    as Honly.
  { intros n data Hc. destruct (earbuds_style_dec adv) as [Hyes|Hno]; [exact Hyes|].
    exfalso. unfold classified in Hc.
    destruct (in_dec string_dec BATTERY_SERVICE_UUID (service_uuids adv)) as [Hin|Hout].
    - rewrite (classify_into_standard [] dev Hno Hin) in Hc. discriminate.
    - rewrite (classify_into_neither [] dev Hno Hout) in Hc. discriminate. }
  split; [|split].
  - split.
    + intros [n [data Hc]]. exact (Honly n data Hc).
    + intros [data [Hget Hlen]]. exists (Py.or_else (name dev) "AirPods"), data.
      apply (classify_into_airpods [] dev _ Hget Hlen).
  - intros data Hget Hlen n data' Hc. apply Honly in Hc.
    destruct Hc as [data0 [Hget0 Hlen0]]. unfold DATA_LENGTH in Hlen0. congruence.
  - intros data Hget Hlen. split.
    + intros df. apply (classify_into_airpods df dev _ Hget Hlen).
    + intros Hname. unfold classified.
      rewrite (classify_into_airpods [] dev _ Hget Hlen), Hname. reflexivity.
Qed.

Lemma earbuds_iff_apple_27_witness :
  classified sample_earbuds "AirPods" (Airpods sample_airpods)
  /\ forall n data', ~ classified sample_short_apple n (Airpods data').
Proof.
  split.
  - apply (earbuds_iff_apple_27 (fst sample_earbuds) (snd sample_earbuds)) ;
      reflexivity.
  - apply (proj1 (proj2 (earbuds_iff_apple_27 (fst sample_short_apple)
                                              (snd sample_short_apple)))
             [x10; x05]).
    + reflexivity.
    + unfold Py.len. simpl. lia.
Defined.

(** C3: an observation that is not EarbudsStyle and advertises the battery
    service is entered as StandardBattery with the device's address as its
    only payload, under its name, which is "Unknown Device" when it advertises
    none; one that advertises neither leaves the snapshot as it was. *)
Theorem standard_battery_or_ignored (dev : BLEDevice) (adv : AdvertisementData) :
  ~ earbuds_style adv ->
  (In BATTERY_SERVICE_UUID (service_uuids adv) ->
   (forall devices_found,
       classify_into devices_found (dev, adv)
       = Ok (enter devices_found (Py.or_else (name dev) "Unknown Device")
                   (Standard (address dev))))
   /\ classified (dev, adv) (Py.or_else (name dev) "Unknown Device")
                 (Standard (address dev))
   /\ (name dev = None ->
       classified (dev, adv) "Unknown Device" (Standard (address dev))))
  /\ (~ In BATTERY_SERVICE_UUID (service_uuids adv) ->
      ignored (dev, adv)
      /\ forall devices_found,
          classify_into devices_found (dev, adv) = Ok devices_found).
Proof.
  intros Hno. split.
  - intros Hin. split; [|split].
    + intros df. apply (classify_into_standard df dev Hno Hin).
    + apply (classify_into_standard [] dev Hno Hin).
    + intros Hname. unfold classified.
      rewrite (classify_into_standard [] dev Hno Hin), Hname. reflexivity.
  - intros Hout. split.
    + apply (classify_into_neither [] dev Hno Hout).
    + intros df. apply (classify_into_neither df dev Hno Hout).
Qed.

Lemma sample_short_apple_not_earbuds : ~ earbuds_style (snd sample_short_apple).
Proof. apply is_airpods_false_iff. reflexivity. Qed.

Lemma sample_unnamed_battery_not_earbuds : ~ earbuds_style (snd sample_unnamed_battery).
Proof. apply is_airpods_false_iff. reflexivity. Qed.

Lemma sample_other_not_earbuds : ~ earbuds_style (snd sample_other).
Proof. apply is_airpods_false_iff. reflexivity. Qed.

Lemma standard_battery_or_ignored_witness :
  classified sample_unnamed_battery "Unknown Device" (Standard "AA:BB:CC:DD:EE:03")
  /\ classified sample_short_apple "Mouse" (Standard "AA:BB:CC:DD:EE:02")
  /\ ignored sample_other.
Proof.
  split; [|split].
  - apply (standard_battery_or_ignored (fst sample_unnamed_battery)
             sample_unnamed_battery_not_earbuds).
    + simpl. tauto.
    + reflexivity.
  - apply (standard_battery_or_ignored (fst sample_short_apple)
             sample_short_apple_not_earbuds).
    simpl. tauto.
  - apply (standard_battery_or_ignored (fst sample_other) sample_other_not_earbuds).
    simpl. intros [].
Defined.

End ClassifyFacts.

(** ** The snapshot of a scan window *)

Section CollectFacts.

Lemma collect_app (devices_found : snapshot)
      (earlier later : list (BLEDevice * AdvertisementData)) :
  collect devices_found (earlier ++ later)
  = bind (collect devices_found earlier) (fun found => collect found later).
Proof.
  revert devices_found. induction earlier as [|obs earlier IH]; intros df; simpl.
  - reflexivity.
  - destruct (classify_into df obs) as [df'|e]; simpl; [apply IH | reflexivity].
Qed.

Lemma enter_present (devices_found : snapshot) (n : string) (i : info) :
  In n (Dict.keys devices_found) -> enter devices_found n i = devices_found.
Proof.
  intros Hin. unfold enter. apply contains_true_iff in Hin. rewrite Hin. reflexivity.
Qed.

Lemma enter_NoDup (devices_found : snapshot) (n : string) (i : info) :
  NoDup (Dict.keys devices_found) -> NoDup (Dict.keys (enter devices_found n i)).
Proof.
  intros Hnd. unfold enter. destruct (Dict.contains n devices_found) eqn:E.
  - exact Hnd.
  - rewrite keys_app. simpl. apply NoDup_app; [exact Hnd | repeat constructor; intros [] |].
    intros k Hk [<- | []]. apply contains_false_iff in E. contradiction.
Qed.

Lemma get_enter (devices_found : snapshot) (n n0 : string) (i : info) :
  Dict.get (enter devices_found n i) n0
  = match Dict.get devices_found n0 with
    | Some v => Some v
    | None => if String.eqb n0 n then Some i else None
    end.
Proof.
  unfold enter. destruct (Dict.contains n devices_found) eqn:E.
  - destruct (Dict.get devices_found n0) eqn:G; [reflexivity|].
    destruct (String.eqb_spec n0 n) as [->|Hne]; [|reflexivity].
    unfold Dict.contains in E. rewrite G in E. discriminate.
  - rewrite get_app. simpl. reflexivity.
Qed.

Lemma In_enter (devices_found : snapshot) (n : string) (i : info) (e : string * info) :
  In e (enter devices_found n i) -> In e devices_found \/ e = (n, i).
Proof.
  unfold enter. destruct (Dict.contains n devices_found); [tauto|].
  intros Hin. apply in_app_or in Hin. destruct Hin as [Hin | [<- | []]]; tauto.
Qed.

Lemma first_qualifying_cons_classified (n n0 : string) (i : info)
      (obs : BLEDevice * AdvertisementData) (rest : list (BLEDevice * AdvertisementData)) :
  classified obs n i ->
  first_qualifying n0 (obs :: rest)
  = if String.eqb n0 n then Some i else first_qualifying n0 rest.
Proof.
  intros Hc. unfold classified in Hc. simpl. rewrite Hc. reflexivity.
Qed.

Lemma first_qualifying_cons_ignored (n0 : string)
      (obs : BLEDevice * AdvertisementData) (rest : list (BLEDevice * AdvertisementData)) :
  ignored obs -> first_qualifying n0 (obs :: rest) = first_qualifying n0 rest.
Proof.
  intros Hi. unfold ignored in Hi. simpl. rewrite Hi. reflexivity.
Qed.

(** The loop from any dict with unique names: it returns, names stay unique,
    what was there stays, and a new name gets its first qualifying
    observation. *)
Lemma collect_spec (discovered : list (BLEDevice * AdvertisementData)) :
  forall devices_found,
    NoDup (Dict.keys devices_found) ->
    exists found,
      collect devices_found discovered = Ok found
      /\ NoDup (Dict.keys found)
      /\ (forall n, Dict.get found n
                    = match Dict.get devices_found n with
                      | Some v => Some v
                      | None => first_qualifying n discovered
                      end)
      /\ (forall n data, In (n, Airpods data) found ->
                         In (n, Airpods data) devices_found
                         \/ Py.len data = DATA_LENGTH).
Proof.
  induction discovered as [|obs rest IH]; intros df Hnd.
  - exists df. simpl. repeat split; auto.
    intros n. destruct (Dict.get df n); reflexivity.
  - simpl collect.
    destruct (classify_cases obs) as [[n [i [Hc [Hlen Hstep]]]] | [Hi Hstep]].
    + rewrite Hstep. cbn [bind].
      destruct (IH (enter df n i) (@enter_NoDup df n i Hnd)) as [found [Hf [Hnd' [Hget Hwf]]]].
      exists found. split; [exact Hf|]. split; [exact Hnd'|]. split.
      * intros n0. rewrite Hget, get_enter, (first_qualifying_cons_classified n0 rest Hc).
        destruct (Dict.get df n0); [reflexivity|].
        destruct (String.eqb n0 n); reflexivity.
      * intros n0 data Hin. destruct (Hwf n0 data Hin) as [Hin'|Hl]; [|tauto].
        apply In_enter in Hin'. destruct Hin' as [Hin' | [= -> <-]]; [tauto|].
        right. apply (Hlen data). reflexivity.
    + rewrite Hstep. cbn [bind].
      destruct (IH df Hnd) as [found [Hf [Hnd' [Hget Hwf]]]].
      exists found. split; [exact Hf|]. split; [exact Hnd'|]. split.
      * intros n0. rewrite Hget, (first_qualifying_cons_ignored n0 rest Hi). reflexivity.
      * exact Hwf.
Qed.

(** A scan window always yields a well-formed snapshot. *)
Lemma collect_well_formed (discovered : list (BLEDevice * AdvertisementData)) :
  exists found, collect [] discovered = Ok found /\ well_formed found.
Proof.
  destruct (@collect_spec discovered []) as [found [Hf [Hnd [_ Hwf]]]];
    [constructor|].
  exists found. split; [exact Hf|]. split; [exact Hnd|].
  intros n data Hin. destruct (Hwf n data Hin) as [[] | Hlen]. exact Hlen.
Qed.

(** C4: the snapshot of a scan window has unique names; a name is in it
    exactly when some observation qualifies under that name, and then it has
    exactly one entry, the one made for the first such observation; a later
    observation under a name already entered leaves the snapshot as it was. *)
Theorem first_seen_wins (discovered : list (BLEDevice * AdvertisementData)) :
  exists found,
    collect [] discovered = Ok found
    /\ NoDup (Dict.keys found)
    /\ (forall n, Dict.get found n = first_qualifying n discovered)
    /\ (forall n, Dict.count n found
                  = match first_qualifying n discovered with
                    | Some _ => 1
                    | None => 0
                    end)
    /\ (forall obs n i,
           classified obs n i ->
           In n (Dict.keys found) ->
           collect [] (discovered ++ [obs]) = Ok found).
Proof.
  destruct (@collect_spec discovered []) as [found [Hf [Hnd [Hget _]]]];
    [constructor|].
  simpl in Hget.
  exists found. split; [exact Hf|]. split; [exact Hnd|]. split; [exact Hget|]. split.
  - intros n. rewrite <- Hget. destruct (Dict.get found n) eqn:G.
    + apply count_present; [exact Hnd|].
      apply contains_true_iff. unfold Dict.contains. rewrite G. reflexivity.
    + apply count_absent. apply get_None_iff, G.
  - intros obs n i Hc Hin. rewrite collect_app, Hf. cbn [bind collect].
    destruct (classify_cases obs) as [[n' [i' [Hc' [_ Hstep]]]] | [Hi _]].
    + unfold classified in Hc, Hc'. rewrite Hc in Hc'. injection Hc' as <- <-.
      rewrite Hstep, (@enter_present found n i Hin). reflexivity.
    + unfold classified in Hc. unfold ignored in Hi. congruence.
Qed.

Lemma first_seen_wins_witness :
  exists found,
    collect [] [sample_earbuds; sample_short_apple; sample_earbuds_again] = Ok found
    /\ Dict.get found "AirPods" = Some (Airpods sample_airpods)
    /\ Dict.count "AirPods" found = 1.
Proof.
  destruct (first_seen_wins [sample_earbuds; sample_short_apple; sample_earbuds_again])
    as [found [Hf [Hnd [Hget [Hcount _]]]]].
  exists found. split; [exact Hf|]. split.
  - rewrite Hget. reflexivity.
  - rewrite Hcount. reflexivity.
Defined.

End CollectFacts.

(** ** The events of the scan loop *)

Section WorkerFacts.

Lemma collect_snapshot_of (discovered : list (BLEDevice * AdvertisementData)) :
  collect [] discovered = Ok (snapshot_of discovered).
Proof.
  unfold snapshot_of.
  destruct (collect_well_formed discovered) as [found [-> _]]. reflexivity.
Qed.

(** One turn queues its three events and does not raise. *)
Lemma scan_cycle_run (discovered : list (BLEDevice * AdvertisementData))
      (queue : list tk_event) :
  scan_cycle discovered queue = (Ok tt, queue ++ cycle_events discovered).
Proof.
  unfold scan_cycle, St.bind, after, St.modify, St.lift.
  rewrite collect_snapshot_of. unfold cycle_events.
  rewrite <- !app_assoc. reflexivity.
Qed.

Lemma scan_and_update_run (windows : list (list (BLEDevice * AdvertisementData))) :
  forall queue,
    scan_and_update windows queue = (Ok tt, queue ++ flat_map cycle_events windows).
Proof.
  unfold scan_and_update.
  induction windows as [|discovered windows IH]; intros queue; simpl.
  - rewrite app_nil_r. reflexivity.
  - unfold St.bind at 1. rewrite scan_cycle_run, IH, <- app_assoc. reflexivity.
Qed.

Lemma events_of_eq (windows : list (list (BLEDevice * AdvertisementData))) :
  events_of windows = flat_map cycle_events windows.
Proof. unfold events_of. rewrite scan_and_update_run. reflexivity. Qed.

Lemma events_length (windows : list (list (BLEDevice * AdvertisementData))) :
  List.length (flat_map cycle_events windows) = 3 * List.length windows.
Proof.
  induction windows as [|w windows IH]; [reflexivity|].
  cbn [flat_map cycle_events app List.length]. rewrite IH. lia.
Qed.

(** The event at position [3 * k + r] is event [r] of turn [k]. *)
Lemma events_nth (windows : list (list (BLEDevice * AdvertisementData))) :
  forall k r,
    r < 3 ->
    nth_error (flat_map cycle_events windows) (3 * k + r)
    = match nth_error windows k with
      | Some discovered => nth_error (cycle_events discovered) r
      | None => None
      end.
Proof.
  induction windows as [|w windows IH]; intros k r Hr.
  - cbn [flat_map].
    assert (nth_error (@nil tk_event) (3 * k + r) = None) as ->
        by (apply nth_error_None; simpl; lia).
    destruct k; reflexivity.
  - destruct k as [|k].
    + cbn [flat_map cycle_events app nth_error Nat.mul Nat.add].
      destruct r as [|[|[|r]]]; try reflexivity. lia.
    + replace (3 * S k + r) with (S (S (S (3 * k + r)))) by lia.
      cbn [flat_map cycle_events app nth_error]. apply IH, Hr.
Qed.

(** Just before the last event of turn [k], the latest snapshot handed over
    is the one of turn [k]. *)
Lemma events_last_snapshot (windows : list (list (BLEDevice * AdvertisementData))) :
  forall k discovered seen,
    nth_error windows k = Some discovered ->
    last_snapshot (firstn (3 * k + 2) (flat_map cycle_events windows)) seen
    = Some (snapshot_of discovered).
Proof.
  induction windows as [|w windows IH]; intros k discovered seen Hk.
  - destruct k; discriminate.
  - destruct k as [|k].
    + injection Hk as ->. reflexivity.
    + replace (3 * S k + 2) with (S (S (S (3 * k + 2)))) by lia.
      cbn [flat_map cycle_events app firstn last_snapshot]. apply IH, Hk.
Qed.

(** C7: over any number of turns the worker does not raise and queues, for
    turn [k], exactly three events at positions [3k], [3k+1], [3k+2]: the
    status "Scanning...", the snapshot of that turn's scan window, the status
    "Scan complete. Next scan in 15s."; nothing else is queued; and wherever
    the scan-complete status stands in the queue, the latest snapshot queued
    before it is the one of its own turn. *)
Theorem cycle_emits_status_snapshot_status
        (windows : list (list (BLEDevice * AdvertisementData))) :
  fst (scan_and_update windows []) = Ok tt
  /\ List.length (events_of windows) = 3 * List.length windows
  /\ (forall k discovered,
         nth_error windows k = Some discovered ->
         exists found,
           collect [] discovered = Ok found
           /\ nth_error (events_of windows) (3 * k)
              = Some (StatusConfig "Scanning...")
           /\ nth_error (events_of windows) (3 * k + 1)
              = Some (UpdateGui found)
           /\ nth_error (events_of windows) (3 * k + 2)
              = Some (StatusConfig "Scan complete. Next scan in 15s."))
  /\ (forall j,
         nth_error (events_of windows) j
         = Some (StatusConfig "Scan complete. Next scan in 15s.") ->
         exists k discovered found,
           j = 3 * k + 2
           /\ nth_error windows k = Some discovered
           /\ collect [] discovered = Ok found
           /\ last_snapshot (firstn j (events_of windows)) None = Some found).
Proof.
  rewrite events_of_eq. split; [|split; [|split]].
  - rewrite scan_and_update_run. reflexivity.
  - apply events_length.
  - intros k discovered Hk. exists (snapshot_of discovered).
    split; [apply collect_snapshot_of|].
    replace (3 * k) with (3 * k + 0) at 1 by lia.
    rewrite !events_nth, Hk by lia. repeat split.
  - intros j Hj.
    assert (j = 3 * (j / 3) + j mod 3) as Ej by (apply Nat.div_mod_eq).
    assert (j mod 3 < 3) as Hr by (apply Nat.mod_upper_bound; lia).
    rewrite Ej, events_nth in Hj by exact Hr.
    destruct (nth_error windows (j / 3)) as [discovered|] eqn:Hk; [|discriminate].
    exists (j / 3), discovered, (snapshot_of discovered).
    destruct (j mod 3) as [|[|[|r]]]; try discriminate; [|lia].
    split; [exact Ej|]. split; [exact Hk|]. split; [apply collect_snapshot_of|].
    rewrite Ej. apply events_last_snapshot, Hk.
Qed.

Lemma cycle_emits_status_snapshot_status_witness :
  exists found,
    collect [] [sample_earbuds; sample_short_apple] = Ok found
    /\ nth_error (events_of [[sample_other]; [sample_earbuds; sample_short_apple]]) 4
       = Some (UpdateGui found).
Proof.
  destruct (proj1 (proj2 (proj2 (cycle_emits_status_snapshot_status
                                   [[sample_other]; [sample_earbuds; sample_short_apple]])))
              1 [sample_earbuds; sample_short_apple] eq_refl)
    as [found [Hf [_ [Hsnap _]]]].
  exists found. split; [exact Hf | exact Hsnap].
Defined.

End WorkerFacts.

(** ** The window *)

Section GuiFacts.

Lemma with_frames_same (app : Application) : with_frames app (device_frames app) = app.
Proof. destruct app. reflexivity. Qed.

Lemma with_container_run (n : string) (g : LabelFrame -> LabelFrame)
      (app : Application) (c : LabelFrame) :
  Dict.get (device_frames app) n = Some c ->
  with_container n g app
  = (Ok tt, with_frames app (Dict.setitem (device_frames app) n (g c))).
Proof.
  intros Hget. unfold with_container, St.bind, St.gets, St.lift, Dict.getitem.
  rewrite Hget. reflexivity.
Qed.

(** Packing the gauges one by one appends them to the frame. *)
Lemma pack_loop (n : string) (battery_data : list (string * battery_level)) :
  forall app c,
    Dict.get (device_frames app) n = Some c ->
    St.for_each battery_data
      (fun '(part, level) =>
         with_container n (pack_child (new_DeviceBatteryFrame part level))) app
    = (Ok tt,
       with_frames app
         (Dict.setitem (device_frames app) n
            {| frame_text := frame_text c;
               winfo_children := winfo_children c ++ gauges battery_data |})).
Proof.
  induction battery_data as [|[part level] rest IH]; intros app c Hget.
  - simpl. rewrite app_nil_r. unfold St.ret.
    replace {| frame_text := frame_text c; winfo_children := winfo_children c |}
      with c by (destruct c; reflexivity).
    rewrite (setitem_unchanged _ _ Hget), with_frames_same. reflexivity.
  - cbn [St.for_each]. unfold St.bind at 1.
    rewrite (with_container_run _ _ _ Hget).
    rewrite (IH _ (pack_child (new_DeviceBatteryFrame part level) c)).
    + cbn [device_frames with_frames status_label]. unfold with_frames.
      cbn [device_frames status_label]. rewrite setitem_twice.
      cbn [pack_child frame_text winfo_children gauges List.map].
      rewrite <- app_assoc. reflexivity.
    + cbn [device_frames with_frames]. apply get_setitem_same.
Qed.

Lemma get_ensure_frame (frames : dict string LabelFrame) (n : string) :
  exists c, Dict.get (ensure_frame frames n) n = Some c.
Proof.
  unfold ensure_frame. destruct (Dict.contains n frames) eqn:E.
  - unfold Dict.contains in E. destruct (Dict.get frames n); [eauto | discriminate].
  - rewrite get_setitem_same. eauto.
Qed.

(** Clearing the frame of a device and packing its widgets anew. *)
Lemma refill_run (n : string) (i : info) (app : Application) (c : LabelFrame) :
  (forall data, i = Airpods data -> Py.len data = DATA_LENGTH) ->
  Dict.get (device_frames app) n = Some c ->
  St.bind (with_container n destroy_children)
    (fun _ =>
       match i with
       | Airpods data =>
           St.bind (St.lift (parse_airpods_data data))
             (fun battery_data =>
                St.for_each battery_data
                  (fun '(part, level) =>
                     with_container n (pack_child (new_DeviceBatteryFrame part level))))
       | Standard _ =>
           with_container n (pack_child (Label "Standard battery device detected."))
       end) app
  = (Ok tt,
     with_frames app
       (Dict.setitem (device_frames app) n
          {| frame_text := frame_text c; winfo_children := widgets_of i |})).
Proof.
  intros Hlen Hget.
  unfold St.bind at 1. rewrite (with_container_run _ _ _ Hget).
  set (app2 := with_frames app _).
  assert (Dict.get (device_frames app2) n = Some (destroy_children c)) as Hget2
      by apply get_setitem_same.
  destruct i as [data | addr].
  - destruct (proj2 (parse_returns_iff data)) as [battery_data Hparse].
    { rewrite (Hlen data eq_refl). unfold DATA_LENGTH. lia. }
    unfold St.bind, St.lift. rewrite Hparse.
    rewrite (pack_loop _ _ _ Hget2). unfold widgets_of. rewrite Hparse.
    unfold app2, with_frames. cbn [device_frames status_label].
    rewrite setitem_twice. reflexivity.
  - rewrite (with_container_run _ _ _ Hget2).
    unfold app2, with_frames. cbn [device_frames status_label].
    rewrite setitem_twice. reflexivity.
Qed.

(** What showing one device does to the window. *)
Lemma show_device_run (n : string) (i : info) (app : Application) (c : LabelFrame) :
  (forall data, i = Airpods data -> Py.len data = DATA_LENGTH) ->
  Dict.get (ensure_frame (device_frames app) n) n = Some c ->
  show_device (n, i) app
  = (Ok tt,
     with_frames app
       (Dict.setitem (ensure_frame (device_frames app) n) n
          {| frame_text := frame_text c; winfo_children := widgets_of i |})).
Proof.
  intros Hlen Hget. unfold show_device, ensure_frame in *.
  unfold St.bind at 1. unfold St.gets at 1. unfold St.bind at 1.
  destruct (Dict.contains n (device_frames app)) eqn:E; cbn [negb].
  - unfold St.ret at 1. cbv beta iota.
    apply (@refill_run n i app c Hlen Hget).
  - unfold set_device_frames, St.modify. cbv beta iota.
    apply (@refill_run n i
             (with_frames app
                (Dict.setitem (device_frames app) n
                   {| frame_text := n; winfo_children := [] |})) c Hlen Hget).
Qed.

Lemma In_keys_ensure_frame (frames : dict string LabelFrame) (n k : string) :
  In k (Dict.keys (ensure_frame frames n)) <-> In k (Dict.keys frames) \/ k = n.
Proof.
  unfold ensure_frame. destruct (Dict.contains n frames) eqn:E.
  - apply contains_true_iff in E. split; [tauto | intros [Hin | ->]; assumption].
  - apply In_keys_setitem.
Qed.

Lemma get_ensure_frame_other (frames : dict string LabelFrame) (n k : string) :
  k <> n -> Dict.get (ensure_frame frames n) k = Dict.get frames k.
Proof.
  intros Hne. unfold ensure_frame. destruct (Dict.contains n frames); [reflexivity|].
  apply get_setitem_other, Hne.
Qed.

(** The loop under [# Add/update frames], from any window. *)
Lemma show_loop (devices : snapshot) :
  forall app,
    well_formed devices ->
    exists frames',
      St.for_each devices show_device app = (Ok tt, with_frames app frames')
      /\ (forall k, In k (Dict.keys frames')
                    <-> In k (Dict.keys (device_frames app)) \/ In k (Dict.keys devices))
      /\ (forall n i, In (n, i) devices ->
                      exists c, Dict.get frames' n = Some c
                                /\ winfo_children c = widgets_of i)
      /\ (forall k, ~ In k (Dict.keys devices) ->
                    Dict.get frames' k = Dict.get (device_frames app) k).
Proof.
  induction devices as [|[n i] rest IH]; intros app [Hnd Hlen].
  - exists (device_frames app). simpl. unfold St.ret. rewrite with_frames_same.
    split; [reflexivity|]. split; [tauto|]. split; [contradiction | reflexivity].
  - simpl in Hnd. inversion Hnd as [|? ? Hout Hnd']; subst.
    destruct (get_ensure_frame (device_frames app) n) as [c Hget].
    cbn [St.for_each]. unfold St.bind at 1.
    rewrite (@show_device_run n i app c); [| |exact Hget].
    2:{ intros data ->. apply (Hlen n data). left. reflexivity. }
    set (shown := Dict.setitem _ n _).
    destruct (IH (with_frames app shown)) as [frames' [Hrun [Hkeys [Hshown Hother]]]].
    { split; [exact Hnd'|]. intros n0 data Hin. apply (Hlen n0 data). right. exact Hin. }
    cbn [device_frames with_frames] in Hkeys, Hother.
    exists frames'. split; [exact Hrun|]. split; [|split].
    + intros k. rewrite Hkeys. unfold shown. rewrite In_keys_setitem, In_keys_ensure_frame.
      simpl. intuition congruence.
    + intros n0 i0 [[= <- <-] | Hin].
      * rewrite (Hother n Hout). unfold shown. rewrite get_setitem_same.
        eexists. split; reflexivity.
      * apply (Hshown n0 i0 Hin).
    + intros k Hk. simpl in Hk.
      assert (k <> n) as Hne by (intros ->; apply Hk; left; reflexivity).
      rewrite Hother by tauto. unfold shown.
      rewrite get_setitem_other by exact Hne. apply get_ensure_frame_other, Hne.
Qed.

(** The loop under [# Remove old frames]: the frames still to visit stand
    after a prefix of frames that stay. *)
Lemma remove_loop (devices : snapshot) (rest : dict string LabelFrame) :
  forall (pre : dict string LabelFrame) (app : Application),
    device_frames app = pre ++ rest ->
    (forall k, In k (Dict.keys pre) -> Dict.contains k devices = true) ->
    St.for_each (Dict.keys rest) (remove_old_frame devices) app
    = (Ok tt,
       with_frames app
         (pre ++ List.filter (fun e => Dict.contains (fst e) devices) rest)).
Proof.
  induction rest as [|[k v] rest IH]; intros pre app Hframes Hpre.
  - simpl. unfold St.ret. rewrite <- Hframes, with_frames_same. reflexivity.
  - change (Dict.keys ((k, v) :: rest)) with (k :: Dict.keys rest).
    cbn [St.for_each List.filter fst].
    unfold St.bind at 1. unfold remove_old_frame at 1.
    destruct (Dict.contains k devices) eqn:E; cbn [negb].
    + unfold St.ret at 1. cbv beta iota.
      rewrite (IH (pre ++ [(k, v)]) app).
      * rewrite <- app_assoc. reflexivity.
      * rewrite Hframes, <- app_assoc. reflexivity.
      * intros k0 Hk0. rewrite keys_app in Hk0. apply in_app_or in Hk0.
        destruct Hk0 as [Hk0 | [<- | []]]; [apply Hpre, Hk0 | exact E].
    + assert (~ In k (Dict.keys pre)) as Hout.
      { intros Hin. apply Hpre in Hin. congruence. }
      unfold St.bind, St.gets, St.lift, Dict.getitem, Dict.delitem, Dict.contains.
      rewrite Hframes. rewrite !get_after by exact Hout.
      rewrite remove_after by exact Hout.
      unfold set_device_frames, St.modify.
      fold (with_frames app (pre ++ rest)).
      apply (IH pre (with_frames app (pre ++ rest))); [reflexivity | exact Hpre].
Qed.

Lemma update_gui_empty (app : Application) :
  update_gui [] app
  = (Ok tt, {| status_label := NO_DEVICES; device_frames := device_frames app |}).
Proof. reflexivity. Qed.

Lemma In_keys_filter_contains (devices : snapshot) (frames : dict string LabelFrame)
      (k : string) :
  In k (Dict.keys (List.filter (fun e => Dict.contains (fst e) devices) frames)) ->
  In k (Dict.keys devices).
Proof.
  unfold Dict.keys at 1. rewrite in_map_iff. intros [[k' v] [<- Hin]].
  apply filter_In in Hin. destruct Hin as [_ Hc]. apply contains_true_iff, Hc.
Qed.

(** A snapshot that is not empty replaces the frames of the window: the
    window does not raise, keeps its status, ends with a frame for exactly the
    names of the snapshot, and the widgets of each frame are those of the
    snapshot's entry alone. *)
Lemma update_gui_replaces (devices : snapshot) (app : Application) :
  devices <> [] ->
  well_formed devices ->
  exists frames',
    update_gui devices app = (Ok tt, with_frames app frames')
    /\ (forall k, In k (Dict.keys frames') <-> In k (Dict.keys devices))
    /\ (forall n i, In (n, i) devices ->
                    exists c, Dict.get frames' n = Some c
                              /\ winfo_children c = widgets_of i).
Proof.
  intros Hne Hwf. unfold update_gui.
  destruct devices as [|entry rest] eqn:Hd; [congruence|]. rewrite <- Hd in *.
  replace (Dict.is_empty devices) with false by (rewrite Hd; reflexivity).
  unfold St.bind at 1. unfold St.gets at 1. unfold St.bind at 1.
  rewrite (@remove_loop devices (device_frames app) [] app eq_refl)
    by (intros k []).
  cbn [List.app].
  set (kept := List.filter _ (device_frames app)).
  destruct (@show_loop devices (with_frames app kept) Hwf)
    as [frames' [Hrun [Hkeys [Hshown _]]]].
  exists frames'. split; [exact Hrun|]. split; [|exact Hshown].
  intros k. rewrite Hkeys. cbn [device_frames with_frames]. split; [|tauto].
  intros [Hin | Hin]; [|exact Hin]. apply (In_keys_filter_contains _ _ _ Hin).
Qed.

Lemma all_ignored_collect (discovered : list (BLEDevice * AdvertisementData)) :
  (forall obs, In obs discovered -> ignored obs) ->
  forall devices_found, collect devices_found discovered = Ok devices_found.
Proof.
  induction discovered as [|obs rest IH]; intros Hall df; [reflexivity|].
  simpl. destruct (classify_cases obs) as [[n [i [Hc _]]] | [_ Hstep]].
  - specialize (Hall obs (or_introl eq_refl)). unfold ignored in Hall.
    unfold classified in Hc. congruence.
  - rewrite Hstep. cbn [bind]. apply IH. intros obs' Hin. apply Hall. right. exact Hin.
Qed.

(** C5: a turn in which no observation qualifies builds the empty snapshot
    and hands it to the window between the two statuses like any other; the
    window takes it without raising and sets its status to
    "No devices found. Retrying...", leaving its frames as they are. *)
Theorem empty_cycle_publishes_no_devices
        (discovered : list (BLEDevice * AdvertisementData)) :
  (forall obs, In obs discovered -> ignored obs) ->
  collect [] discovered = Ok []
  /\ (forall queue,
         scan_cycle discovered queue
         = (Ok tt,
            queue ++ [StatusConfig "Scanning..."; UpdateGui [];
                      StatusConfig "Scan complete. Next scan in 15s."]))
  /\ (forall app,
         update_gui [] app
         = (Ok tt, {| status_label := "No devices found. Retrying...";
                      device_frames := device_frames app |})).
Proof.
  intros Hall. pose proof (all_ignored_collect _ Hall []) as Hc.
  split; [exact Hc|]. split.
  - intros queue. rewrite scan_cycle_run. unfold cycle_events, snapshot_of.
    rewrite Hc. reflexivity.
  - intros app. apply update_gui_empty.
Qed.

Lemma empty_cycle_publishes_no_devices_witness :
  collect [] [sample_other] = Ok []
  /\ status_label (snd (update_gui [] init_Application)) = "No devices found. Retrying...".
Proof.
  assert (forall obs, In obs [sample_other] -> ignored obs) as Hall.
  { intros obs [<- | []]. reflexivity. }
  split.
  - apply (empty_cycle_publishes_no_devices [sample_other] Hall).
  - rewrite (proj2 (proj2 (empty_cycle_publishes_no_devices [sample_other] Hall))).
    reflexivity.
Defined.

Lemma mainloop_snoc_cycle (windows : list (list (BLEDevice * AdvertisementData)))
      (discovered : list (BLEDevice * AdvertisementData)) (app : Application) :
  mainloop (events_of (windows ++ [discovered])) app
  = run_callback
      (run_callback
         (run_callback (mainloop (events_of windows) app) (StatusConfig SCANNING))
         (UpdateGui (snapshot_of discovered)))
      (StatusConfig SCAN_COMPLETE).
Proof.
  rewrite !events_of_eq, flat_map_app. unfold mainloop. rewrite fold_left_app.
  simpl. reflexivity.
Qed.

(** After a turn whose snapshot is not empty, the frames of the window are
    for exactly the names of that snapshot, each filled from its entry. *)
Lemma cycle_replaces_frames (windows : list (list (BLEDevice * AdvertisementData)))
      (discovered : list (BLEDevice * AdvertisementData)) :
  snapshot_of discovered <> [] ->
  let app' := mainloop (events_of (windows ++ [discovered])) init_Application in
  (forall k, In k (Dict.keys (device_frames app'))
             <-> In k (Dict.keys (snapshot_of discovered)))
  /\ (forall n i, In (n, i) (snapshot_of discovered) ->
                  exists c, Dict.get (device_frames app') n = Some c
                            /\ winfo_children c = widgets_of i).
Proof.
  intros Hne app'. unfold app'. rewrite mainloop_snoc_cycle.
  set (app0 := run_callback _ (StatusConfig SCANNING)).
  destruct (collect_well_formed discovered) as [found [Hf Hwf]].
  assert (snapshot_of discovered = found) as Hs by (unfold snapshot_of; rewrite Hf; reflexivity).
  rewrite Hs in *.
  destruct (@update_gui_replaces found app0 Hne Hwf) as [frames' [Hrun [Hkeys Hshown]]].
  cbn [run_callback]. rewrite Hrun.
  cbn [snd status_label_config St.modify device_frames with_frames].
  split; assumption.
Qed.

(** C6, at a window where it fails: a turn found an unnamed earbuds device,
    the next turn found nothing; the empty snapshot is handed over, yet the
    frame "AirPods" of the turn before is still in the window. *)
Theorem stale_frames_survive_empty_cycle :
  let after_n := mainloop (events_of [[sample_earbuds]]) init_Application in
  let after_n1 := mainloop (events_of [[sample_earbuds]; []]) init_Application in
  In "AirPods" (Dict.keys (device_frames after_n))
  /\ nth_error (events_of [[sample_earbuds]; []]) 4 = Some (UpdateGui [])
  /\ In "AirPods" (Dict.keys (device_frames after_n1))
  /\ device_frames after_n1 = device_frames after_n.
Proof.
  cbv zeta. split; [|split; [|split]].
  - vm_compute. left. reflexivity.
  - vm_compute. reflexivity.
  - vm_compute. left. reflexivity.
  - vm_compute. reflexivity.
Qed.

End GuiFacts.

(** * Further properties of the decoder and its gauges *)

Section DecoderMore.

(** Whatever the decoder returns is read from bytes 6 and 7. *)
Lemma parse_ok_inv (raw : Py.bytes) (readings : list (string * battery_level)) :
  parse_airpods_data raw = Ok readings ->
  exists b6 b7,
    nth_error raw 6 = Some b6 /\ nth_error raw 7 = Some b7
    /\ readings = [ ("Left", level_of (Py.high_nibble b6));
                    ("Right", level_of (Py.low_nibble b6));
                    ("Case", level_of (Py.low_nibble b7)) ].
Proof.
  intros Hparse.
  destruct (nth_error raw 7) as [b7|] eqn:H7;
    [|rewrite (parse_too_short _ H7) in Hparse; discriminate].
  destruct (@nth_error_present raw 6) as [b6 H6].
  { assert (nth_error raw 7 <> None) as Hn by congruence.
    apply nth_error_Some in Hn. unfold Py.len. lia. }
  exists b6, b7. rewrite (parse_from_bytes _ H6 H7) in Hparse.
  injection Hparse as <-. auto.
Qed.

Lemma level_of_cases (n : N) :
  (n < 16)%N ->
  level_of n = None \/ exists d, (0 <= d <= 10)%Z /\ level_of n = Some (10 * d)%Z.
Proof.
  intros Hn. unfold level_of. destruct (Z.leb_spec (Z.of_N n) 10).
  - right. exists (Z.of_N n). split; [lia|]. f_equal. lia.
  - left. reflexivity.
Qed.

Lemma decoded_level_cases (raw : Py.bytes) (readings : list (string * battery_level))
      (part : string) (lvl : battery_level) :
  parse_airpods_data raw = Ok readings ->
  In (part, lvl) readings ->
  lvl = None \/ exists d, (0 <= d <= 10)%Z /\ lvl = Some (10 * d)%Z.
Proof.
  intros Hparse Hin.
  destruct (parse_ok_inv _ Hparse) as [b6 [b7 [_ [_ ->]]]].
  destruct Hin as [[= _ <-] | [[= _ <-] | [[= _ <-] | []]]];
    apply level_of_cases;
    auto using high_nibble_lt, low_nibble_lt.
Qed.

(** X1: the decoder needs bytes 0 to 7 and nothing more: on an input of at
    least 8 bytes it returns the three readings Left, Right, Case; on a
    shorter one, the empty one included, it raises [IndexError]; it raises
    nothing else. *)
Theorem decode_needs_eight_bytes (raw : Py.bytes) :
  (8 <= Py.len raw ->
   exists left right case,
     parse_airpods_data raw = Ok [ ("Left", left); ("Right", right); ("Case", case) ])
  /\ (Py.len raw < 8 -> parse_airpods_data raw = Raise IndexError)
  /\ parse_airpods_data raw <> Raise ValueError
  /\ parse_airpods_data raw <> Raise KeyError.
Proof.
  assert (Py.len raw < 8 -> parse_airpods_data raw = Raise IndexError) as Hshort.
  { intros Hlen. apply parse_too_short, nth_error_None. unfold Py.len in Hlen. lia. }
  assert (8 <= Py.len raw ->
          exists left right case,
            parse_airpods_data raw
            = Ok [ ("Left", left); ("Right", right); ("Case", case) ]) as Hlong.
  { intros Hlen.
    destruct (@nth_error_present raw 6) as [b6 H6]; [lia|].
    destruct (@nth_error_present raw 7) as [b7 H7]; [lia|].
    rewrite (parse_from_bytes _ H6 H7). eauto. }
  split; [exact Hlong|]. split; [exact Hshort|].
  destruct (le_lt_dec 8 (Py.len raw)) as [Hlen|Hlen].
  - destruct (Hlong Hlen) as [l [r [c ->]]]. split; discriminate.
  - rewrite (Hshort Hlen). split; discriminate.
Qed.

Lemma decode_needs_eight_bytes_witness :
  parse_airpods_data [x07; x19; x01; x0e; x20; x75; xa5] = Raise IndexError
  /\ parse_airpods_data [] = Raise IndexError.
Proof.
  split.
  - apply (decode_needs_eight_bytes [x07; x19; x01; x0e; x20; x75; xa5]).
    unfold Py.len. simpl. lia.
  - apply (decode_needs_eight_bytes []). unfold Py.len. simpl. lia.
Defined.

(** X2: every reading the decoder returns, on any input, is either unknown
    or a multiple of ten from 0 to 100. *)
Theorem decode_levels_in_range (raw : Py.bytes) (readings : list (string * battery_level))
        (part : string) (lvl : battery_level) :
  parse_airpods_data raw = Ok readings ->
  In (part, lvl) readings ->
  lvl = None \/ exists d, (0 <= d <= 10)%Z /\ lvl = Some (10 * d)%Z.
Proof.
  apply decoded_level_cases.
Qed.

Lemma decode_levels_in_range_witness :
  Some 50%Z = None \/ exists d, (0 <= d <= 10)%Z /\ Some 50%Z = Some (10 * d)%Z.
Proof.
  apply (@decode_levels_in_range sample_airpods
           [ ("Left", Some 100%Z); ("Right", Some 50%Z); ("Case", Some 0%Z) ] "Right").
  - reflexivity.
  - simpl. tauto.
Defined.

(** X3: of byte 7 the decoder reads the low nibble only: two inputs of any
    lengths with the same byte 6 and bytes 7 that agree on their low four
    bits decode alike. *)
Theorem decode_ignores_high_nibble_of_byte_7 (raw1 raw2 : Py.bytes) (b6 b7 b7' : byte) :
  nth_error raw1 6 = Some b6 ->
  nth_error raw2 6 = Some b6 ->
  nth_error raw1 7 = Some b7 ->
  nth_error raw2 7 = Some b7' ->
  Py.low_nibble b7 = Py.low_nibble b7' ->
  parse_airpods_data raw1 = parse_airpods_data raw2.
Proof.
  intros H6 H6' H7 H7' Hlow.
  rewrite (parse_from_bytes _ H6 H7), (parse_from_bytes _ H6' H7'), Hlow.
  reflexivity.
Qed.

Lemma decode_ignores_high_nibble_of_byte_7_witness :
  parse_airpods_data [x00; x00; x00; x00; x00; x00; xa5; x80]
  = parse_airpods_data [x01; x02; x03; x04; x05; x06; xa5; xf0; x09].
Proof.
  apply (@decode_ignores_high_nibble_of_byte_7 _ _ xa5 x80 xf0); reflexivity.
Defined.

(** X4: the gauge built for any reading the decoder returns has a progress
    value from 0 to 100; an unknown reading shows "N/A" at 0 in grey, a known
    one shows its percentage in red up to 20, in orange from 30 to 50 and in
    green from 60. *)
Theorem gauge_of_decoded_level (raw : Py.bytes) (readings : list (string * battery_level))
        (part : string) (lvl : battery_level) :
  parse_airpods_data raw = Ok readings ->
  In (part, lvl) readings ->
  exists value text style,
    new_DeviceBatteryFrame part lvl = DeviceBatteryFrame part value text style
    /\ (0 <= value <= 100)%Z
    /\ (lvl = None ->
        value = 0%Z /\ text = "N/A" /\ style = "grey.Horizontal.TProgressbar")
    /\ (forall p, lvl = Some p ->
                  value = p
                  /\ text = (Py.str_of_int p ++ "%")%string
                  /\ style = if (p <=? 20)%Z then "red.Horizontal.TProgressbar"
                             else if (p <=? 50)%Z then "orange.Horizontal.TProgressbar"
                             else "green.Horizontal.TProgressbar").
Proof.
  intros Hparse Hin.
  destruct (@decoded_level_cases raw readings part lvl Hparse Hin)
    as [-> | [d [Hd ->]]].
  - exists 0%Z, "N/A", "grey.Horizontal.TProgressbar".
    split; [reflexivity|]. split; [lia|]. split; [auto | discriminate].
  - exists (10 * d)%Z, (Py.str_of_int (10 * d) ++ "%")%string.
    exists (if (10 * d <=? 20)%Z then "red.Horizontal.TProgressbar"
            else if (10 * d <=? 50)%Z then "orange.Horizontal.TProgressbar"
            else "green.Horizontal.TProgressbar").
    split; [|split; [lia|split; [discriminate|]]].
    + unfold new_DeviceBatteryFrame.
      destruct (Z.ltb_spec 50 (10 * d)), (Z.leb_spec (10 * d) 20),
        (Z.leb_spec (10 * d) 50), (Z.ltb_spec 20 (10 * d));
        try lia; reflexivity.
    + intros p [= <-]. auto.
Qed.

Lemma gauge_of_decoded_level_witness :
  exists value text style,
    new_DeviceBatteryFrame "Right" (Some 50%Z) = DeviceBatteryFrame "Right" value text style
    /\ (0 <= value <= 100)%Z.
Proof.
  destruct (@gauge_of_decoded_level sample_airpods
              [ ("Left", Some 100%Z); ("Right", Some 50%Z); ("Case", Some 0%Z) ]
              "Right" (Some 50%Z) eq_refl (or_intror (or_introl eq_refl)))
    as [value [text [style [Heq [Hrange _]]]]].
  exists value, text, style. split; assumption.
Defined.

End DecoderMore.

(** * Further properties of the scan *)

Section ScanMore.

Lemma or_else_nonempty (x : option string) (default : string) :
  default <> "" -> Py.or_else x default <> "".
Proof.
  intros Hd. unfold Py.or_else. destruct x as [[|c s]|]; [exact Hd | discriminate | exact Hd].
Qed.

(** What an entry made for an observation on its own says about it. *)
Lemma classified_inv (dev : BLEDevice) (adv : AdvertisementData) (n : string) (i : info) :
  classified (dev, adv) n i ->
  (exists data,
      i = Airpods data
      /\ Dict.get (manufacturer_data adv) APPLE_MANUFACTURER_ID = Some data
      /\ Py.len data = DATA_LENGTH
      /\ n = Py.or_else (name dev) "AirPods")
  \/ (i = Standard (address dev)
      /\ ~ earbuds_style adv
      /\ In BATTERY_SERVICE_UUID (service_uuids adv)
      /\ n = Py.or_else (name dev) "Unknown Device").
Proof.
  unfold classified. intros Hc.
  destruct (earbuds_style_dec adv) as [[data [Hget Hlen]] | Hno].
  - rewrite (classify_into_airpods [] dev _ Hget Hlen) in Hc.
    injection Hc as <- <-. left. exists data. auto.
  - destruct (in_dec string_dec BATTERY_SERVICE_UUID (service_uuids adv)) as [Hin|Hout].
    + rewrite (classify_into_standard [] dev Hno Hin) in Hc.
      injection Hc as <- <-. right. auto.
    + rewrite (classify_into_neither [] dev Hno Hout) in Hc. discriminate.
Qed.

(** Every entry of the dict the loop returns was there before or was made
    for one of the observations. *)
Lemma collect_In (discovered : list (BLEDevice * AdvertisementData)) :
  forall devices_found found,
    collect devices_found discovered = Ok found ->
    forall n i,
      In (n, i) found ->
      In (n, i) devices_found
      \/ exists obs, In obs discovered /\ classified obs n i.
Proof.
  induction discovered as [|obs rest IH]; intros df found Hcol n i Hin.
  - injection Hcol as <-. left. exact Hin.
  - simpl in Hcol.
    destruct (classify_cases obs) as [[n' [i' [Hc [_ Hstep]]]] | [_ Hstep]];
      rewrite Hstep in Hcol; cbn [bind] in Hcol.
    + destruct (IH _ _ Hcol n i Hin) as [Hin' | [obs' [Hobs' Hc']]].
      * apply In_enter in Hin'. destruct Hin' as [Hin' | [= -> ->]]; [tauto|].
        right. exists obs. split; [left; reflexivity | exact Hc].
      * right. exists obs'. split; [right; exact Hobs' | exact Hc'].
    + destruct (IH _ _ Hcol n i Hin) as [Hin' | [obs' [Hobs' Hc']]]; [tauto|].
      right. exists obs'. split; [right; exact Hobs' | exact Hc'].
Qed.

(** X5: the loop over a scan window never raises, whatever was found before
    and whatever the advertisements hold; it keeps every entry found before,
    in place and unchanged, and appends at most one entry per observation. *)
Theorem collect_only_appends (discovered : list (BLEDevice * AdvertisementData))
        (devices_found : snapshot) :
  exists added,
    collect devices_found discovered = Ok (devices_found ++ added)
    /\ List.length added <= List.length discovered.
Proof.
  revert devices_found. induction discovered as [|obs rest IH]; intros df.
  - exists []. rewrite app_nil_r. split; [reflexivity | simpl; lia].
  - simpl collect.
    destruct (classify_cases obs) as [[n [i [_ [_ Hstep]]]] | [_ Hstep]];
      rewrite Hstep; cbn [bind].
    + unfold enter. destruct (Dict.contains n df).
      * destruct (IH df) as [added [Hc Hlen]]. exists added.
        split; [exact Hc | simpl; lia].
      * destruct (IH (df ++ [(n, i)])) as [added [Hc Hlen]].
        exists ((n, i) :: added). rewrite Hc, <- app_assoc.
        split; [reflexivity | simpl; lia].
    + destruct (IH df) as [added [Hc Hlen]]. exists added.
      split; [exact Hc | simpl; lia].
Qed.

(** X6: every entry of a snapshot comes from an observation of its scan
    window: an earbuds entry holds the 27 bytes that observation advertised
    under manufacturer ID 76, under the device's name or "AirPods"; a standard
    entry holds the address of a device that advertised the battery service
    and no such 27 bytes, under the device's name or "Unknown Device". *)
Theorem snapshot_entries_come_from_observations
        (discovered : list (BLEDevice * AdvertisementData)) (found : snapshot)
        (n : string) (i : info) :
  collect [] discovered = Ok found ->
  In (n, i) found ->
  exists dev adv,
    In (dev, adv) discovered
    /\ ((exists data,
            i = Airpods data
            /\ Dict.get (manufacturer_data adv) APPLE_MANUFACTURER_ID = Some data
            /\ Py.len data = 27
            /\ n = Py.or_else (name dev) "AirPods")
        \/ (i = Standard (address dev)
            /\ ~ earbuds_style adv
            /\ In BATTERY_SERVICE_UUID (service_uuids adv)
            /\ n = Py.or_else (name dev) "Unknown Device")).
Proof.
  intros Hcol Hin.
  destruct (collect_In _ _ Hcol n i Hin) as [[] | [[dev adv] [Hobs Hc]]].
  exists dev, adv. split; [exact Hobs|]. apply classified_inv, Hc.
Qed.

Lemma snapshot_entries_come_from_observations_witness :
  exists dev adv,
    In (dev, adv) [sample_other; sample_short_apple]
    /\ address dev = "AA:BB:CC:DD:EE:02".
Proof.
  destruct (@snapshot_entries_come_from_observations
              [sample_other; sample_short_apple]
              [("Mouse", Standard "AA:BB:CC:DD:EE:02")]
              "Mouse" (Standard "AA:BB:CC:DD:EE:02") eq_refl (or_introl eq_refl))
    as [dev [adv [Hin [[data [Hi _]] | [Hi _]]]]].
  - discriminate Hi.
  - exists dev, adv. split; [exact Hin|]. injection Hi as ->. reflexivity.
Defined.

(** X7: no name in a snapshot is the empty string: a device that advertises
    no name, or an empty one, is entered under "AirPods" or "Unknown
    Device". *)
Theorem snapshot_names_not_empty
        (discovered : list (BLEDevice * AdvertisementData)) (found : snapshot)
        (n : string) :
  collect [] discovered = Ok found ->
  In n (Dict.keys found) ->
  n <> "".
Proof.
  intros Hcol Hin. unfold Dict.keys in Hin. apply in_map_iff in Hin.
  destruct Hin as [[n' i] [<- Hin]]. cbn [fst].
  destruct (collect_In _ _ Hcol n' i Hin) as [[] | [[dev adv] [_ Hc]]].
  destruct (classified_inv Hc) as [[data [_ [_ [_ ->]]]] | [_ [_ [_ ->]]]];
    apply or_else_nonempty; discriminate.
Qed.

Lemma snapshot_names_not_empty_witness : "AirPods" <> "".
Proof.
  apply (@snapshot_names_not_empty [sample_earbuds_again]
           [("AirPods", Airpods sample_airpods')] "AirPods").
  - reflexivity.
  - simpl. tauto.
Defined.

Lemma first_qualifying_In (discovered : list (BLEDevice * AdvertisementData))
      (obs : BLEDevice * AdvertisementData) (n : string) (i : info) :
  In obs discovered -> classified obs n i -> first_qualifying n discovered <> None.
Proof.
  induction discovered as [|obs' rest IH]; intros Hin Hc; [contradiction|].
  destruct (classify_cases obs') as [[n' [i' [Hc' _]]] | [Hi' _]].
  - rewrite (first_qualifying_cons_classified n rest Hc').
    destruct (String.eqb_spec n n') as [->|Hne]; [discriminate|].
    destruct Hin as [-> | Hin]; [|apply IH; assumption].
    unfold classified in Hc, Hc'. congruence.
  - rewrite (first_qualifying_cons_ignored n rest Hi').
    destruct Hin as [-> | Hin]; [|apply IH; assumption].
    unfold classified in Hc. unfold ignored in Hi'. congruence.
Qed.

(** X8: the snapshot of a scan window is empty exactly when every
    observation of the window is neither EarbudsStyle nor an advertiser of the
    battery service. *)
Theorem snapshot_empty_iff (discovered : list (BLEDevice * AdvertisementData)) :
  collect [] discovered = Ok []
  <-> forall dev adv,
      In (dev, adv) discovered ->
      ~ earbuds_style adv /\ ~ In BATTERY_SERVICE_UUID (service_uuids adv).
Proof.
  split.
  - intros Hcol dev adv Hin.
    destruct (@collect_spec discovered [] (NoDup_nil _)) as [found [Hf [_ [Hget _]]]].
    rewrite Hcol in Hf. injection Hf as <-. simpl in Hget.
    assert (forall n i, ~ classified (dev, adv) n i) as Hnone.
    { intros n i Hc. apply (first_qualifying_In _ Hin Hc). symmetry. apply Hget. }
    split.
    + intros [data [Hget' Hlen]].
      apply (Hnone _ _ (classify_into_airpods [] dev _ Hget' Hlen)).
    + intros Hbat. destruct (earbuds_style_dec adv) as [[data [Hget' Hlen]] | Hno].
      * apply (Hnone _ _ (classify_into_airpods [] dev _ Hget' Hlen)).
      * apply (Hnone _ _ (classify_into_standard [] dev Hno Hbat)).
  - intros Hall. apply all_ignored_collect. intros [dev adv] Hin.
    destruct (Hall dev adv Hin) as [Hno Hout].
    apply (classify_into_neither [] dev Hno Hout).
Qed.

End ScanMore.

(** * Further properties of the window *)

Section GuiMore.

Lemma get_Some_In {V : Type} (d : dict string V) (k : string) (v : V) :
  Dict.get d k = Some v -> In (k, v) d.
Proof.
  induction d as [|[k' v'] d IH]; simpl; [discriminate|].
  destruct (String.eqb_spec k k') as [->|Hne].
  - intros [= ->]. left. reflexivity.
  - intros Hget. right. apply IH, Hget.
Qed.

Lemma In_setitem {V : Type} (d : dict string V) (k : string) (v : V) (e : string * V) :
  In e (Dict.setitem d k v) -> In e d \/ e = (k, v).
Proof.
  induction d as [|[k' v'] d IH]; simpl.
  - intros [<- | []]. right. reflexivity.
  - destruct (String.eqb_spec k k') as [->|Hne]; simpl.
    + intros [<- | Hin]; [right; reflexivity | left; right; exact Hin].
    + intros [<- | Hin]; [left; left; reflexivity|].
      destruct (IH Hin) as [Hin' | ->]; [left; right; exact Hin' | right; reflexivity].
Qed.

Lemma NoDup_keys_setitem {V : Type} (d : dict string V) (k : string) (v : V) :
  NoDup (Dict.keys d) -> NoDup (Dict.keys (Dict.setitem d k v)).
Proof.
  intros Hnd. destruct (Dict.contains k d) eqn:E.
  - rewrite keys_setitem_present by exact E. exact Hnd.
  - rewrite setitem_fresh by exact E. rewrite keys_app. simpl.
    apply NoDup_app; [exact Hnd | repeat constructor; intros [] |].
    intros k' Hk [<- | []]. apply contains_false_iff in E. contradiction.
Qed.

(** One turn of the loop under [# Add/update frames] assigns the refilled
    frame to the name. *)
Lemma show_one_ensure (frames : dict string LabelFrame) (n : string) (i : info)
      (c : LabelFrame) :
  Dict.get (ensure_frame frames n) n = Some c ->
  Dict.setitem (ensure_frame frames n) n
    {| frame_text := frame_text c; winfo_children := widgets_of i |}
  = show_one frames (n, i).
Proof.
  unfold ensure_frame, show_one, Dict.contains. cbn [fst snd].
  destruct (Dict.get frames n) as [c0|] eqn:G.
  - intros Hget. rewrite G in Hget. injection Hget as <-. reflexivity.
  - rewrite get_setitem_same. intros [= <-]. rewrite setitem_twice. reflexivity.
Qed.

Lemma show_loop_run (devices : snapshot) :
  forall app,
    well_formed devices ->
    St.for_each devices show_device app
    = (Ok tt, with_frames app (show_all (device_frames app) devices)).
Proof.
  induction devices as [|[n i] rest IH]; intros app [Hnd Hlen].
  - simpl. unfold St.ret. rewrite with_frames_same. reflexivity.
  - simpl in Hnd. inversion Hnd as [|? ? Hout Hnd']; subst.
    destruct (get_ensure_frame (device_frames app) n) as [c Hget].
    cbn [St.for_each]. unfold St.bind at 1.
    rewrite (@show_device_run n i app c); [| |exact Hget].
    2:{ intros data ->. apply (Hlen n data). left. reflexivity. }
    rewrite (show_one_ensure _ _ i Hget).
    rewrite IH.
    + reflexivity.
    + split; [exact Hnd'|]. intros n0 data Hin. apply (Hlen n0 data). right. exact Hin.
Qed.

(** What [update_gui] does to the window, when the earbuds entries of the
    snapshot can be decoded. *)
Lemma update_gui_run (devices : snapshot) (app : Application) :
  well_formed devices ->
  update_gui devices app
  = (Ok tt,
     {| status_label := if Dict.is_empty devices then NO_DEVICES else status_label app;
        device_frames := updated_frames (device_frames app) devices |}).
Proof.
  intros Hwf. unfold updated_frames.
  destruct devices as [|entry rest] eqn:Hd; [reflexivity|]. rewrite <- Hd in *.
  replace (Dict.is_empty devices) with false by (rewrite Hd; reflexivity).
  unfold update_gui.
  replace (Dict.is_empty devices) with false by (rewrite Hd; reflexivity).
  unfold St.bind at 1. unfold St.gets at 1. unfold St.bind at 1.
  rewrite (@remove_loop devices (device_frames app) [] app eq_refl)
    by (intros k []).
  cbn [List.app]. rewrite (show_loop_run _ Hwf). reflexivity.
Qed.

Lemma snapshot_of_well_formed (discovered : list (BLEDevice * AdvertisementData)) :
  well_formed (snapshot_of discovered).
Proof.
  destruct (collect_well_formed discovered) as [found [Hf Hwf]].
  unfold snapshot_of. rewrite Hf. exact Hwf.
Qed.

(** X9: handed the snapshot of any scan window, [update_gui] does not raise,
    whatever the window holds: no decode fails and no dict key is missing.
    It sets the status to "No devices found. Retrying..." when the snapshot is
    empty and leaves the status alone otherwise. *)
Theorem update_gui_of_scan_never_raises
        (discovered : list (BLEDevice * AdvertisementData)) (found : snapshot)
        (app : Application) :
  collect [] discovered = Ok found ->
  fst (update_gui found app) = Ok tt
  /\ status_label (snd (update_gui found app))
     = if Dict.is_empty found then "No devices found. Retrying..." else status_label app.
Proof.
  intros Hf.
  assert (well_formed found) as Hwf.
  { pose proof (snapshot_of_well_formed discovered) as Hwf.
    unfold snapshot_of in Hwf. rewrite Hf in Hwf. exact Hwf. }
  rewrite (update_gui_run app Hwf). split; reflexivity.
Qed.

Lemma update_gui_of_scan_never_raises_witness :
  fst (update_gui [("Mouse", Standard "AA:BB:CC:DD:EE:02")] init_Application) = Ok tt.
Proof.
  apply (@update_gui_of_scan_never_raises [sample_other; sample_short_apple]
           [("Mouse", Standard "AA:BB:CC:DD:EE:02")] init_Application).
  reflexivity.
Defined.

Lemma widgets_of_standard (a : string) :
  widgets_of (Standard a) = [Label "Standard battery device detected."].
Proof. reflexivity. Qed.

Lemma widgets_of_airpods (data : Py.bytes) :
  8 <= Py.len data ->
  exists left right case,
    parse_airpods_data data = Ok [ ("Left", left); ("Right", right); ("Case", case) ]
    /\ widgets_of (Airpods data)
       = [ new_DeviceBatteryFrame "Left" left;
           new_DeviceBatteryFrame "Right" right;
           new_DeviceBatteryFrame "Case" case ].
Proof.
  intros Hlen.
  destruct (@nth_error_present data 6) as [b6 H6]; [lia|].
  destruct (@nth_error_present data 7) as [b7 H7]; [lia|].
  pose proof (parse_from_bytes _ H6 H7) as Hparse.
  do 3 eexists. split; [exact Hparse|].
  unfold widgets_of. rewrite Hparse. reflexivity.
Qed.

(** X10: after [update_gui] on a snapshot with unique names and 27-byte
    earbuds entries, the frame of an earbuds entry holds exactly three gauges,
    Left, Right and Case in that order, built from the readings decoded from
    the entry's bytes, and the frame of a standard entry holds the one notice
    "Standard battery device detected."; what the frame held before is gone. *)
Theorem update_gui_fills_frames (devices : snapshot) (app : Application)
        (n : string) (i : info) :
  well_formed devices ->
  In (n, i) devices ->
  exists frames' c,
    update_gui devices app = (Ok tt, with_frames app frames')
    /\ Dict.get frames' n = Some c
    /\ match i with
       | Airpods data =>
           exists left right case,
             parse_airpods_data data
             = Ok [ ("Left", left); ("Right", right); ("Case", case) ]
             /\ winfo_children c
                = [ new_DeviceBatteryFrame "Left" left;
                    new_DeviceBatteryFrame "Right" right;
                    new_DeviceBatteryFrame "Case" case ]
       | Standard _ =>
           winfo_children c = [Label "Standard battery device detected."]
       end.
Proof.
  intros Hwf Hin.
  assert (devices <> []) as Hne by (intros ->; contradiction).
  destruct (@update_gui_replaces devices app Hne Hwf) as [frames' [Hrun [_ Hshown]]].
  destruct (Hshown n i Hin) as [c [Hget Hch]].
  exists frames', c. split; [exact Hrun|]. split; [exact Hget|].
  destruct i as [data | a].
  - destruct (@widgets_of_airpods data) as [l [r [k [Hparse Hw]]]].
    { rewrite (proj2 Hwf n data Hin). unfold DATA_LENGTH. lia. }
    exists l, r, k. split; [exact Hparse | congruence].
  - rewrite Hch. reflexivity.
Qed.

Lemma sample_snapshot_well_formed :
  well_formed [("AirPods", Airpods sample_airpods); ("Mouse", Standard "AA:BB:CC:DD:EE:02")].
Proof.
  split.
  - simpl. repeat constructor; simpl; intuition discriminate.
  - intros n data [[= _ <-] | [[=] | []]]. reflexivity.
Qed.

Lemma update_gui_fills_frames_witness :
  exists frames' c,
    update_gui [("AirPods", Airpods sample_airpods); ("Mouse", Standard "AA:BB:CC:DD:EE:02")]
               init_Application
    = (Ok tt, with_frames init_Application frames')
    /\ Dict.get frames' "Mouse" = Some c
    /\ winfo_children c = [Label "Standard battery device detected."].
Proof.
  destruct (@update_gui_fills_frames
              [("AirPods", Airpods sample_airpods); ("Mouse", Standard "AA:BB:CC:DD:EE:02")]
              init_Application "Mouse" (Standard "AA:BB:CC:DD:EE:02")
              sample_snapshot_well_formed (or_intror (or_introl eq_refl)))
    as [frames' [c H]].
  exists frames', c. exact H.
Defined.

(** X11: after any whole number of turns of the scan loop, one at least, the
    status label reads "Scan complete. Next scan in 15s.", also when the last
    turn found no device: the status "No devices found. Retrying..." never
    outlasts the turn that set it. *)
Theorem status_after_cycles (windows : list (list (BLEDevice * AdvertisementData)))
        (app : Application) :
  windows <> [] ->
  status_label (mainloop (events_of windows) app) = "Scan complete. Next scan in 15s.".
Proof.
  intros Hne. destruct (exists_last Hne) as [earlier [discovered ->]].
  rewrite mainloop_snoc_cycle. reflexivity.
Qed.

Lemma status_after_cycles_witness :
  status_label (mainloop (events_of [[sample_earbuds]; []]) init_Application)
  = "Scan complete. Next scan in 15s.".
Proof.
  apply status_after_cycles. discriminate.
Defined.

Lemma mainloop_cons_cycle (discovered : list (BLEDevice * AdvertisementData))
      (windows : list (list (BLEDevice * AdvertisementData))) (app : Application) :
  mainloop (events_of (discovered :: windows)) app
  = mainloop (events_of windows)
      (run_callback
         (run_callback (run_callback app (StatusConfig SCANNING))
                       (UpdateGui (snapshot_of discovered)))
         (StatusConfig SCAN_COMPLETE)).
Proof.
  rewrite !events_of_eq. reflexivity.
Qed.

Lemma cycle_frames (discovered : list (BLEDevice * AdvertisementData)) (app : Application) :
  device_frames
    (run_callback
       (run_callback (run_callback app (StatusConfig SCANNING))
                     (UpdateGui (snapshot_of discovered)))
       (StatusConfig SCAN_COMPLETE))
  = updated_frames (device_frames app) (snapshot_of discovered).
Proof.
  cbn [run_callback]. rewrite (update_gui_run _ (snapshot_of_well_formed discovered)).
  reflexivity.
Qed.

Lemma updated_frames_shows (frames : dict string LabelFrame) (devices : snapshot) :
  devices <> [] -> well_formed devices -> shows (updated_frames frames devices) devices.
Proof.
  intros Hne Hwf.
  destruct (@update_gui_replaces devices (with_frames init_Application frames) Hne Hwf)
    as [frames' [Hrun Hshows]].
  rewrite (update_gui_run _ Hwf) in Hrun.
  apply (f_equal snd) in Hrun. apply (f_equal device_frames) in Hrun.
  cbn [snd device_frames with_frames] in Hrun. rewrite Hrun. exact Hshows.
Qed.

Lemma mainloop_shows (windows : list (list (BLEDevice * AdvertisementData))) :
  forall app shown,
    shows (device_frames app) shown ->
    shows (device_frames (mainloop (events_of windows) app)) (last_shown windows shown).
Proof.
  induction windows as [|discovered windows IH]; intros app shown Hshows.
  - exact Hshows.
  - rewrite mainloop_cons_cycle. cbn [last_shown]. apply IH. rewrite cycle_frames.
    destruct (snapshot_of discovered) as [|entry rest] eqn:Hs.
    + exact Hshows.
    + cbn [Dict.is_empty]. rewrite <- Hs. apply updated_frames_shows.
      * rewrite Hs. discriminate.
      * apply snapshot_of_well_formed.
Qed.

(** X12: after any number of turns from the start of the program, the window
    has a frame for exactly the names of the latest snapshot that was not
    empty (none if every snapshot was empty), and each frame holds the widgets
    of that snapshot's entry: turns that find nothing leave no trace in the
    frames. *)
Theorem window_shows_last_nonempty_snapshot
        (windows : list (list (BLEDevice * AdvertisementData))) :
  let frames := device_frames (mainloop (events_of windows) init_Application) in
  let devices := last_shown windows [] in
  (forall k, In k (Dict.keys frames) <-> In k (Dict.keys devices))
  /\ forall n i, In (n, i) devices ->
                 exists c, Dict.get frames n = Some c /\ winfo_children c = widgets_of i.
Proof.
  apply (mainloop_shows windows init_Application (shown := [])).
  split; [reflexivity | intros n i []].
Qed.

Lemma In_keys_filter {V : Type} (p : string * V -> bool) (d : dict string V) (k : string) :
  In k (Dict.keys (List.filter p d)) -> In k (Dict.keys d).
Proof.
  unfold Dict.keys. rewrite !in_map_iff. intros [e [He Hin]].
  apply filter_In in Hin. exists e. tauto.
Qed.

Lemma NoDup_keys_filter {V : Type} (p : string * V -> bool) (d : dict string V) :
  NoDup (Dict.keys d) -> NoDup (Dict.keys (List.filter p d)).
Proof.
  induction d as [|[k v] d IH]; simpl; intros Hnd; [constructor|].
  inversion Hnd as [|? ? Hout Hnd']; subst.
  destruct (p (k, v)); [|apply IH, Hnd'].
  simpl. constructor; [|apply IH, Hnd'].
  intros Hin. apply Hout. apply (In_keys_filter _ _ _ Hin).
Qed.

Lemma widgets_of_shape (i : info) :
  (forall data, i = Airpods data -> Py.len data = DATA_LENGTH) ->
  widgets_of i = [Label "Standard battery device detected."]
  \/ exists left right case,
      widgets_of i
      = [ new_DeviceBatteryFrame "Left" left;
          new_DeviceBatteryFrame "Right" right;
          new_DeviceBatteryFrame "Case" case ].
Proof.
  intros Hlen. destruct i as [data | a]; [right | left; reflexivity].
  destruct (@widgets_of_airpods data) as [l [r [k [_ Hw]]]].
  { rewrite (Hlen data eq_refl). unfold DATA_LENGTH. lia. }
  eauto.
Qed.

Lemma frames_ok_show_one (frames : dict string LabelFrame) (n : string) (i : info) :
  (forall data, i = Airpods data -> Py.len data = DATA_LENGTH) ->
  frames_ok frames -> frames_ok (show_one frames (n, i)).
Proof.
  intros Hlen [Hnd Hok]. unfold show_one. cbn [fst snd]. split.
  - apply NoDup_keys_setitem, Hnd.
  - intros m c Hin. apply In_setitem in Hin. destruct Hin as [Hin | [= -> ->]].
    + apply (Hok m c Hin).
    + split; [|apply widgets_of_shape, Hlen]. cbn [frame_text].
      destruct (Dict.get frames n) as [c0|] eqn:G; [|reflexivity].
      apply get_Some_In in G. apply (Hok n c0 G).
Qed.

Lemma frames_ok_show_all (devices : snapshot) :
  forall frames,
    (forall n data, In (n, Airpods data) devices -> Py.len data = DATA_LENGTH) ->
    frames_ok frames -> frames_ok (show_all frames devices).
Proof.
  unfold show_all.
  induction devices as [|[n i] rest IH]; intros frames Hlen Hok; [exact Hok|].
  cbn [fold_left]. apply IH.
  - intros n0 data Hin. apply (Hlen n0 data). right. exact Hin.
  - apply frames_ok_show_one; [|exact Hok].
    intros data ->. apply (Hlen n data). left. reflexivity.
Qed.

Lemma frames_ok_updated (frames : dict string LabelFrame) (devices : snapshot) :
  well_formed devices -> frames_ok frames -> frames_ok (updated_frames frames devices).
Proof.
  intros [_ Hlen] [Hnd Hok]. unfold updated_frames.
  destruct (Dict.is_empty devices); [split; assumption|].
  apply frames_ok_show_all; [exact Hlen|]. unfold kept. split.
  - apply NoDup_keys_filter, Hnd.
  - intros n c Hin. apply filter_In in Hin. apply (Hok n c (proj1 Hin)).
Qed.

Lemma mainloop_frames_ok (windows : list (list (BLEDevice * AdvertisementData))) :
  forall app,
    frames_ok (device_frames app) ->
    frames_ok (device_frames (mainloop (events_of windows) app)).
Proof.
  induction windows as [|discovered windows IH]; intros app Hok; [exact Hok|].
  rewrite mainloop_cons_cycle. apply IH. rewrite cycle_frames.
  apply frames_ok_updated; [apply snapshot_of_well_formed | exact Hok].
Qed.

(** X13: at every point between two turns of the scan loop, from the start
    of the program on, the frames of the window have distinct names, each
    frame is titled with the name it is filed under, and each holds either the
    one notice of a standard device or the three gauges Left, Right, Case:
    never an empty frame, never a mixture. *)
Theorem window_frames_invariant (windows : list (list (BLEDevice * AdvertisementData))) :
  let frames := device_frames (mainloop (events_of windows) init_Application) in
  NoDup (Dict.keys frames)
  /\ forall n c,
      In (n, c) frames ->
      frame_text c = n
      /\ (winfo_children c = [Label "Standard battery device detected."]
          \/ exists left right case,
              winfo_children c
              = [ new_DeviceBatteryFrame "Left" left;
                  new_DeviceBatteryFrame "Right" right;
                  new_DeviceBatteryFrame "Case" case ]).
Proof.
  apply (mainloop_frames_ok windows init_Application).
  split; [constructor | intros n c []].
Qed.

Lemma filter_all {A : Type} (p : A -> bool) (l : list A) :
  (forall x, In x l -> p x = true) -> List.filter p l = l.
Proof.
  induction l as [|x l IH]; intros Hall; [reflexivity|].
  simpl. rewrite (Hall x (or_introl eq_refl)). f_equal.
  apply IH. intros y Hy. apply Hall. right. exact Hy.
Qed.

(** The loop under [# Add/update frames] changes nothing when every frame
    already holds the widgets of its entry. *)
Lemma show_all_fixed (devices : snapshot) (frames : dict string LabelFrame) :
  (forall n i, In (n, i) devices ->
               exists c, Dict.get frames n = Some c /\ winfo_children c = widgets_of i) ->
  show_all frames devices = frames.
Proof.
  unfold show_all. induction devices as [|[n i] rest IH]; intros Hshown; [reflexivity|].
  cbn [fold_left].
  assert (show_one frames (n, i) = frames) as ->.
  { destruct (Hshown n i (or_introl eq_refl)) as [c [Hget Hch]].
    unfold show_one. cbn [fst snd]. rewrite Hget, <- Hch.
    replace {| frame_text := frame_text c; winfo_children := winfo_children c |}
      with c by (destruct c; reflexivity).
    apply setitem_unchanged, Hget. }
  apply IH. intros n0 i0 Hin. apply Hshown. right. exact Hin.
Qed.

Lemma updated_frames_twice (frames : dict string LabelFrame) (devices : snapshot) :
  well_formed devices ->
  updated_frames (updated_frames frames devices) devices = updated_frames frames devices.
Proof.
  intros Hwf. destruct devices as [|entry rest] eqn:Hd; [reflexivity|]. rewrite <- Hd in *.
  assert (devices <> []) as Hne by (rewrite Hd; discriminate).
  destruct (updated_frames_shows frames Hne Hwf) as [Hkeys Hshown].
  set (once := updated_frames frames devices) in *.
  unfold updated_frames at 1.
  replace (Dict.is_empty devices) with false by (rewrite Hd; reflexivity).
  assert (kept once devices = once) as ->.
  { apply filter_all. intros [k c] Hin. cbn [fst].
    apply contains_true_iff, Hkeys. apply (in_map fst) in Hin. exact Hin. }
  apply show_all_fixed, Hshown.
Qed.

(** X14: handing the window the same snapshot twice is the same as handing
    it once: the second [update_gui] returns without raising and leaves the
    window, status and frames, exactly as the first left it. *)
Theorem update_gui_idempotent (devices : snapshot) (app : Application) :
  well_formed devices ->
  update_gui devices (snd (update_gui devices app))
  = (Ok tt, snd (update_gui devices app)).
Proof.
  intros Hwf. rewrite (update_gui_run app Hwf). cbn [snd].
  rewrite (update_gui_run _ Hwf). cbn [status_label device_frames].
  rewrite (updated_frames_twice _ Hwf).
  destruct (Dict.is_empty devices); reflexivity.
Qed.

Lemma update_gui_idempotent_witness :
  update_gui [("AirPods", Airpods sample_airpods); ("Mouse", Standard "AA:BB:CC:DD:EE:02")]
    (snd (update_gui
            [("AirPods", Airpods sample_airpods); ("Mouse", Standard "AA:BB:CC:DD:EE:02")]
            init_Application))
  = (Ok tt,
     snd (update_gui
            [("AirPods", Airpods sample_airpods); ("Mouse", Standard "AA:BB:CC:DD:EE:02")]
            init_Application)).
Proof.
  apply update_gui_idempotent. exact sample_snapshot_well_formed.
Defined.

Lemma keys_show_one (frames : dict string LabelFrame) (n : string) (i : info) :
  Dict.keys (show_one frames (n, i))
  = Dict.keys frames ++ (if Dict.contains n frames then [] else [n]).
Proof.
  unfold show_one. cbn [fst snd]. destruct (Dict.contains n frames) eqn:E.
  - rewrite keys_setitem_present by exact E. rewrite app_nil_r. reflexivity.
  - rewrite setitem_fresh by exact E. rewrite keys_app. reflexivity.
Qed.

Lemma get_show_one_other (frames : dict string LabelFrame) (n m : string) (i : info) :
  m <> n -> Dict.get (show_one frames (n, i)) m = Dict.get frames m.
Proof.
  intros Hne. unfold show_one. cbn [fst snd]. apply get_setitem_other, Hne.
Qed.

Lemma get_show_all_other (devices : snapshot) (m : string) :
  forall frames,
    ~ In m (Dict.keys devices) ->
    Dict.get (show_all frames devices) m = Dict.get frames m.
Proof.
  unfold show_all. induction devices as [|[n i] rest IH]; intros frames Hout; [reflexivity|].
  cbn [fold_left]. simpl in Hout. rewrite IH by tauto.
  apply get_show_one_other. intros ->. apply Hout. left. reflexivity.
Qed.

Lemma keys_show_all (devices : snapshot) :
  forall frames,
    NoDup (Dict.keys devices) ->
    Dict.keys (show_all frames devices)
    = Dict.keys frames
      ++ List.filter (fun n => negb (Dict.contains n frames)) (Dict.keys devices).
Proof.
  unfold show_all. induction devices as [|[n i] rest IH]; intros frames Hnd.
  - simpl. rewrite app_nil_r. reflexivity.
  - simpl in Hnd. inversion Hnd as [|? ? Hout Hnd']; subst.
    cbn [fold_left]. rewrite (IH _ Hnd'), keys_show_one, <- app_assoc. f_equal.
    change (Dict.keys ((n, i) :: rest)) with (n :: Dict.keys rest).
    cbn [List.filter].
    assert (List.filter (fun m => negb (Dict.contains m (show_one frames (n, i))))
                        (Dict.keys rest)
            = List.filter (fun m => negb (Dict.contains m frames)) (Dict.keys rest)) as ->.
    { apply filter_ext_in. intros m Hm. unfold Dict.contains.
      rewrite get_show_one_other; [reflexivity|]. intros ->. contradiction. }
    destruct (Dict.contains n frames); reflexivity.
Qed.

Lemma get_kept (frames : dict string LabelFrame) (devices : snapshot) (m : string) :
  Dict.get (kept frames devices) m
  = if Dict.contains m devices then Dict.get frames m else None.
Proof.
  unfold kept. induction frames as [|[k v] frames IH].
  - simpl. destruct (Dict.contains m devices); reflexivity.
  - cbn [List.filter fst]. destruct (Dict.contains k devices) eqn:E.
    + cbn [Dict.get key_eqb string_Hashable].
      destruct (String.eqb_spec m k) as [->|Hne]; [rewrite E; reflexivity | exact IH].
    + rewrite IH. cbn [Dict.get key_eqb string_Hashable].
      destruct (String.eqb_spec m k) as [->|Hne]; [rewrite E|]; reflexivity.
Qed.

Lemma keys_kept (frames : dict string LabelFrame) (devices : snapshot) :
  Dict.keys (kept frames devices)
  = List.filter (fun k => Dict.contains k devices) (Dict.keys frames).
Proof.
  unfold kept. induction frames as [|[k v] frames IH]; simpl; [reflexivity|].
  destruct (Dict.contains k devices); simpl; rewrite IH; reflexivity.
Qed.

(** X15: [update_gui] on a snapshot that is not empty keeps the frames of
    the devices still present in the order they had, drops the others, and
    puts the frames of the new devices after them, in the order of the
    snapshot. *)
Theorem update_gui_keeps_frame_order (devices : snapshot) (app : Application) :
  devices <> [] ->
  well_formed devices ->
  Dict.keys (device_frames (snd (update_gui devices app)))
  = List.filter (fun k => Dict.contains k devices) (Dict.keys (device_frames app))
    ++ List.filter (fun n => negb (Dict.contains n (device_frames app)))
                   (Dict.keys devices).
Proof.
  intros Hne Hwf. rewrite (update_gui_run app Hwf). cbn [snd device_frames].
  unfold updated_frames. destruct devices as [|entry rest] eqn:Hd; [congruence|].
  rewrite <- Hd in *. replace (Dict.is_empty devices) with false by (rewrite Hd; reflexivity).
  rewrite keys_show_all by exact (proj1 Hwf). rewrite keys_kept. f_equal.
  apply filter_ext_in. intros n Hn. unfold Dict.contains at 1.
  rewrite get_kept. apply contains_true_iff in Hn. rewrite Hn. reflexivity.
Qed.

Lemma update_gui_keeps_frame_order_witness :
  Dict.keys
    (device_frames
       (snd (update_gui [("Mouse", Standard "AA:BB:CC:DD:EE:02")]
                        (with_frames init_Application
                           [("Gone", {| frame_text := "Gone"; winfo_children := [] |})]))))
  = ["Mouse"].
Proof.
  apply (@update_gui_keeps_frame_order [("Mouse", Standard "AA:BB:CC:DD:EE:02")]
           (with_frames init_Application
              [("Gone", {| frame_text := "Gone"; winfo_children := [] |})])).
  - discriminate.
  - split.
    + simpl. repeat constructor. intros [].
    + intros n data [[=] | []].
Defined.

Lemma for_each_app {S X : Type} (body : X -> ST S unit) (l1 l2 : list X) (s : S) :
  St.for_each (l1 ++ l2) body s
  = St.bind (St.for_each l1 body) (fun _ => St.for_each l2 body) s.
Proof.
  revert s. induction l1 as [|x l1 IH]; intros s; [reflexivity|].
  cbn [List.app St.for_each]. unfold St.bind.
  destruct (body x s) as [[[]|e] s']; [|reflexivity].
  rewrite IH. reflexivity.
Qed.

(** Showing an earbuds device whose bytes cannot be decoded: the frame is
    there and emptied when the decoder raises. *)
Lemma show_device_raises (n : string) (data : Py.bytes) (e : exception)
      (app : Application) (c : LabelFrame) :
  parse_airpods_data data = Raise e ->
  Dict.get (ensure_frame (device_frames app) n) n = Some c ->
  show_device (n, Airpods data) app
  = (Raise e,
     with_frames app
       (Dict.setitem (ensure_frame (device_frames app) n) n (destroy_children c))).
Proof.
  intros Hparse Hget. unfold show_device, ensure_frame in *.
  unfold St.bind at 1. unfold St.gets at 1. unfold St.bind at 1.
  destruct (Dict.contains n (device_frames app)) eqn:E; cbn [negb].
  - unfold St.ret at 1. cbv beta iota.
    unfold St.bind at 1. rewrite (with_container_run _ _ _ Hget).
    unfold St.bind, St.lift. rewrite Hparse. reflexivity.
  - unfold set_device_frames, St.modify. cbv beta iota.
    unfold St.bind at 1.
    rewrite (@with_container_run n destroy_children
               {| status_label := status_label app;
                  device_frames :=
                    Dict.setitem (device_frames app) n
                      {| frame_text := n; winfo_children := [] |} |} c Hget).
    unfold St.bind, St.lift. rewrite Hparse. reflexivity.
Qed.

(** X16: when a snapshot holds an earbuds entry with fewer than 8 bytes,
    [update_gui] raises [IndexError] at that entry: the entry's frame is left
    in the window with no widget in it, and the entries after it are not
    shown at all, their names keeping whatever frame the removal loop left
    them, none if they had none. *)
Theorem update_gui_aborts_on_short_data (earlier later : snapshot) (n : string)
        (data : Py.bytes) (app : Application) :
  well_formed earlier ->
  Py.len data < 8 ->
  let devices := earlier ++ (n, Airpods data) :: later in
  exists frames',
    update_gui devices app = (Raise IndexError, with_frames app frames')
    /\ (exists c, Dict.get frames' n = Some c /\ winfo_children c = [])
    /\ (forall m,
           m <> n ->
           ~ In m (Dict.keys earlier) ->
           Dict.get frames' m
           = if Dict.contains m devices then Dict.get (device_frames app) m else None).
Proof.
  intros Hwf Hlen devices.
  assert (parse_airpods_data data = Raise IndexError) as Hparse.
  { apply parse_too_short, nth_error_None. unfold Py.len in Hlen. lia. }
  set (shown := show_all (kept (device_frames app) devices) earlier).
  destruct (get_ensure_frame shown n) as [c Hget].
  exists (Dict.setitem (ensure_frame shown n) n (destroy_children c)).
  split; [|split].
  - unfold update_gui.
    replace (Dict.is_empty devices) with false
      by (unfold devices; destruct earlier; reflexivity).
    unfold St.bind at 1. unfold St.gets at 1. unfold St.bind at 1.
    rewrite (@remove_loop devices (device_frames app) [] app eq_refl)
      by (intros k []).
    cbn [List.app]. unfold devices at 1. rewrite for_each_app.
    unfold St.bind at 1. rewrite (show_loop_run _ Hwf).
    cbn [St.for_each]. unfold St.bind at 1.
    match goal with
    | |- context [show_device _ ?a] =>
        rewrite (@show_device_raises n data IndexError a c Hparse Hget)
    end.
    reflexivity.
  - exists (destroy_children c). split; [apply get_setitem_same | reflexivity].
  - intros m Hne Hout. rewrite get_setitem_other by exact Hne.
    rewrite get_ensure_frame_other by exact Hne.
    unfold shown. rewrite get_show_all_other by exact Hout. apply get_kept.
Qed.

Lemma update_gui_aborts_on_short_data_witness :
  exists frames',
    update_gui sample_truncated init_Application
    = (Raise IndexError, with_frames init_Application frames')
    /\ Dict.get frames' "Mouse" = None.
Proof.
  destruct (@update_gui_aborts_on_short_data [] [("Mouse", Standard "AA:BB:CC:DD:EE:02")]
              "Pods" [x07; x19; x01] init_Application)
    as [frames' [Hrun [_ Hother]]].
  - split; [constructor | intros n data []].
  - unfold Py.len. simpl. lia.
  - exists frames'. split; [exact Hrun|].
    rewrite (Hother "Mouse"); [reflexivity | discriminate | intros []].
Defined.

End GuiMore.
